(** * ILLORA RETREATS concierge: the QA agent and the admin dashboard

    A shallow embedding of [services/qa_agent.py] and [dashboard.py].

    Python values are given as data: a [str] is its list of Unicode code
    points, a dict is an association list in insertion order, a file system
    is a finite map from paths to files.  The services the program calls
    but does not define (the retriever, the hosted model, [str.lower], the
    pandas readers and writers, the clock and the uuid generator) are taken
    as parameters; exceptions are values of a result type. *)

From Stdlib Require Import ZArith NArith List String Ascii Lia Bool.
From Stdlib Require Import Floats.SpecFloat.
From stdpp Require Import base option list gmap strings.
Import ListNotations.

Set Warnings "-register-all".
Local Open Scope N_scope.

(* ===================================================================== *)
(** * Python strings *)
(* ===================================================================== *)

(** A Python [str]: the sequence of its code points. *)
Definition char := N.
Definition str := list char.

(** Decoding of a UTF-8 source literal into code points. *)
Fixpoint utf8_decode (bs : list N) : str :=
  match bs with
  | [] => []
  | b0 :: r1 =>
      if b0 <? 128 then b0 :: utf8_decode r1
      else match r1 with
      | [] => []
      | b1 :: r2 =>
          if b0 <? 224 then ((b0 - 192) * 64 + (b1 - 128)) :: utf8_decode r2
          else match r2 with
          | [] => []
          | b2 :: r3 =>
              if b0 <? 240
              then ((b0 - 224) * 4096 + (b1 - 128) * 64 + (b2 - 128)) :: utf8_decode r3
              else match r3 with
              | [] => []
              | b3 :: r4 =>
                  ((b0 - 240) * 262144 + (b1 - 128) * 4096
                   + (b2 - 128) * 64 + (b3 - 128)) :: utf8_decode r4
              end
          end
      end
  end.

(** A string literal of the source. *)
Definition py (s : string) : str :=
  utf8_decode (map N_of_ascii (list_ascii_of_string s)).
Arguments py : simpl never.

Definition NL : char := 10.
Definition PIPE : char := 124.

(** [str.isspace] on one code point: the white space of CPython's
    [_PyUnicode_IsWhitespace]. *)
Definition is_space (c : char) : bool :=
  ((9 <=? c) && (c <=? 13)) || ((28 <=? c) && (c <=? 32))
  || (c =? 133) || (c =? 160) || (c =? 5760)
  || ((8192 <=? c) && (c <=? 8202))
  || (c =? 8232) || (c =? 8233) || (c =? 8239) || (c =? 8287) || (c =? 12288).

(** [s.lstrip()], [s.rstrip()] and [s.strip()]. *)
Fixpoint lstrip (s : str) : str :=
  match s with
  | c :: r => if is_space c then lstrip r else s
  | [] => []
  end.

Definition rstrip (s : str) : str := rev (lstrip (rev s)).

Definition strip (s : str) : str := rstrip (lstrip s).

(** Truth value of a string: [bool(s)]. *)
Definition truthy_str (s : str) : bool :=
  match s with [] => false | _ :: _ => true end.

(** [s.startswith(p)]. *)
Fixpoint starts_with (p s : str) : bool :=
  match p, s with
  | [], _ => true
  | _ :: _, [] => false
  | a :: p', b :: s' => (a =? b) && starts_with p' s'
  end.

(** [t in s] for strings: [t] occurs as a substring of [s]. *)
Fixpoint contains (t s : str) : bool :=
  starts_with t s ||
  match s with
  | [] => false
  | _ :: s' => contains t s'
  end.

(** [sep.join(parts)]. *)
Fixpoint join (sep : str) (parts : list str) : str :=
  match parts with
  | [] => []
  | [p] => p
  | p :: rest => p ++ sep ++ join sep rest
  end.

(** [s.split(sep)] for a one-character separator: the fields between the
    separators, empty fields kept. *)
Fixpoint split_on (sep : char) (s : str) : list str :=
  match s with
  | [] => [[]]
  | c :: r =>
      if c =? sep then [] :: split_on sep r
      else match split_on sep r with
           | f :: fs => (c :: f) :: fs
           | [] => [[c]]
           end
  end.

(* ===================================================================== *)
(** * Python values, exceptions and effects *)
(* ===================================================================== *)

(** The values the program handles: what [json.load] returns, plus tuples.
    A dict keeps its items in insertion order. *)
Inductive pyval :=
| PNone
| PBool (b : bool)
| PInt (n : Z)
| PFloat (x : spec_float)
| PStr (s : str)
| PList (xs : list pyval)
| PTuple (xs : list pyval)
| PDict (items : list (str * pyval)).

(** A raised exception (an instance of [Exception]): its class and [str(e)]. *)
Record exn := Exn { exn_class : string; exn_text : str }.

Inductive result (A : Type) :=
| Ok (a : A)
| Raise (e : exn).
Arguments Ok {A} a.
Arguments Raise {A} e.

#[global] Instance result_ret : MRet result := fun A a => Ok a.
#[global] Instance result_bind : MBind result := fun A B f m =>
  match m with
  | Ok a => f a
  | Raise e => Raise e
  end.

Definition AttributeError (what : string) : exn :=
  Exn "AttributeError" (py what).
Definition TypeError (what : string) : exn :=
  Exn "TypeError" (py what).

(** [bool(v)]. *)
Definition truthy (v : pyval) : bool :=
  match v with
  | PNone => false
  | PBool b => b
  | PInt n => negb (n =? 0)%Z
  | PFloat x => match x with S754_zero _ => false | _ => true end
  | PStr s => truthy_str s
  | PList xs | PTuple xs => match xs with [] => false | _ => true end
  | PDict items => match items with [] => false | _ => true end
  end.

(** What [for entry in v] iterates over. *)
Definition py_iter (v : pyval) : result (list pyval) :=
  match v with
  | PList xs | PTuple xs => Ok xs
  | PDict items => Ok (map (fun kv => PStr (fst kv)) items)
  | PStr s => Ok (map (fun c => PStr [c]) s)
  | _ => Raise (TypeError "object is not iterable")
  end.

(** [d[k]] as an option: the first item with key [k]. *)
Fixpoint dict_lookup (k : str) (items : list (str * pyval)) : option pyval :=
  match items with
  | [] => None
  | (k', v) :: rest => if bool_decide (k = k') then Some v else dict_lookup k rest
  end.

(** [v.get(k, default)]: only a dict has the method. *)
Definition py_get (v : pyval) (k : str) (default : pyval) : result pyval :=
  match v with
  | PDict items =>
      Ok (match dict_lookup k items with Some x => x | None => default end)
  | _ => Raise (AttributeError "object has no attribute 'get'")
  end.

(** [v.strip()]: only a [str] has the method. *)
Definition py_strip (v : pyval) : result str :=
  match v with
  | PStr s => Ok (strip s)
  | _ => Raise (AttributeError "object has no attribute 'strip'")
  end.

(** What the program does to the outside world, in order. *)
Inductive event :=
| Retrieve (query : option str)     (* self.retriever.invoke(query) *)
| Invoke (prompt : str)             (* self.llm.invoke(prompt) *)
| LogInfo (msg : str)
| LogWarning (msg : str)
| LogError (msg : str)
| Print (msg : str).

(** A computation that may raise and that appends to the event trace. *)
Definition io (A : Type) : Type := list event -> result A * list event.

#[global] Instance io_ret : MRet io := fun A a t => (Ok a, t).
#[global] Instance io_bind : MBind io := fun A B f m t =>
  match m t with
  | (Ok a, t') => f a t'
  | (Raise e, t') => (Raise e, t')
  end.

Definition emit (ev : event) : io unit := fun t => (Ok tt, t ++ [ev]).

(** An external call: the event is recorded, then the call returns or raises. *)
Definition call {A : Type} (ev : event) (r : result A) : io A :=
  fun t => (r, t ++ [ev]).

Definition lift {A : Type} (r : result A) : io A := fun t => (r, t).

(** [try: body except Exception as e: handler(e)]. *)
Definition try_except {A : Type} (body : io A) (handler : exn -> io A) : io A :=
  fun t =>
    match body t with
    | (Ok a, t') => (Ok a, t')
    | (Raise e, t') => handler e t'
    end.

(** [f"{query}"] for an optional string: [None] prints as its name. *)
Definition fmt (query : option str) : str :=
  match query with
  | Some s => s
  | None => py "None"
  end.

(** [query or ""]. *)
Definition or_empty (query : option str) : str :=
  match query with
  | Some s => s
  | None => []
  end.

(* ===================================================================== *)
(** * services/qa_agent.py: ConciergeBot *)
(* ===================================================================== *)

(** A retrieved chunk. *)
Record Document := { page_content : str }.

(** What [self.llm.invoke] returns: a message with a [content] attribute,
    or an object without one, of which only [str(response)] is used. *)
Inductive Response :=
| Message (content : pyval)
| Plain (text : str).

(** The fields of [self] that [ask] reads.  The retriever and the model are
    services: each answers a call with a value or an exception. *)
Record ConciergeBot := {
  retriever : option str -> result (list Document);
  llm : str -> result Response;
  dos_donts : pyval
}.

Definition RULES_HEADER : str :=
  [NL; NL] ++ py "📋 **Important Communication Rules:**" ++ [NL].

Definition do_line (do : str) : str := py "- ✅ Do: " ++ do ++ [NL].
Definition dont_line (dont : str) : str := py "- ❌ Don't: " ++ dont ++ [NL].

(** One turn of the loop of [_build_prompt] over [self.dos_donts]. *)
Definition rules_step (rules_text : str) (entry : pyval) : result str :=
  d ← py_get entry (py "do") (PStr []);
  do ← py_strip d;
  d' ← py_get entry (py "dont") (PStr []);
  dont ← py_strip d';
  let rules_text := if truthy_str do then rules_text ++ do_line do else rules_text in
  let rules_text := if truthy_str dont then rules_text ++ dont_line dont else rules_text in
  Ok rules_text.

Fixpoint rules_loop (rules_text : str) (entries : list pyval) : result str :=
  match entries with
  | [] => Ok rules_text
  | entry :: rest =>
      rules_text' ← rules_step rules_text entry;
      rules_loop rules_text' rest
  end.

(** The text before the rules: branding, hotel data and the query. *)
Definition preamble (hotel_data : str) (query : option str) : str :=
  py "You are a knowledgeable, polite, and concise concierge assistant at *ILLORA RETREATS*, "
  ++ py "a premium hotel known for elegant accommodations, gourmet dining, rejuvenating spa treatments, "
  ++ py "a fully-equipped gym, pool access, 24x7 room service, meeting spaces, and personalized hospitality."
  ++ [NL; NL]
  ++ py "Answer strictly using the Hotel Data below. If the data does not contain the answer, say: "
  ++ py "'I don’t have that information in the hotel data yet.'" ++ [NL; NL]
  ++ py "Hotel Data:" ++ [NL] ++ hotel_data ++ [NL; NL]
  ++ py "Guest Query: " ++ fmt query ++ [NL].

Definition _build_prompt (self : ConciergeBot) (hotel_data : str)
    (query : option str) : result str :=
  rules_text ←
    (if truthy (dos_donts self)
     then entries ← py_iter (dos_donts self);
          rules_loop RULES_HEADER entries
     else Ok []);
  Ok (preamble hotel_data query ++ rules_text).

Definition restricted_services : list str :=
  [py "wake-up call"; py "spa"; py "gym"; py "pool"; py "room service";
   py "book a room"; py "booking"].

Definition REFUSAL : str :=
  py "We're sorry, this service is exclusive to *guests* at ILLORA RETREATS." ++ [NL]
  ++ py "Feel free to explore our dining options, events, and lobby amenities!".

Definition STAND_IN : str :=
  py "I'm here to help with any questions about ILLORA RETREATS.".

Definition FALLBACK : str :=
  py "We're sorry, there was an issue while assisting you. "
  ++ py "Please feel free to ask again or contact the ILLORA RETREATS front desk for immediate help.".

(** [user_type == "non-guest"]. *)
Definition is_non_guest (user_type : option str) : bool :=
  match user_type with
  | Some u => bool_decide (u = py "non-guest")
  | None => false
  end.

(** [response.content.strip() if hasattr(response, "content") else str(response)]. *)
Definition answer_text (response : Response) : result str :=
  match response with
  | Message content => py_strip content
  | Plain text => Ok text
  end.

Definition error_message (query : option str) (e : exn) : str :=
  py "Error processing query at ILLORA RETREATS '" ++ fmt query ++ py "': " ++ exn_text e.

Section Ask.

(** [str.lower], Python's Unicode lowercasing. *)
Variable lower : str -> str.

(** The guard of the first [if] of [ask]. *)
Definition blocked (query user_type : option str) : bool :=
  let lower_query := lower (or_empty query) in
  is_non_guest user_type
  && existsb (fun term => contains term lower_query) restricted_services.

(** What follows the guard inside the [try]. *)
Definition answer (self : ConciergeBot) (query : option str) : io str :=
  docs ← call (Retrieve query) (retriever self query);
  let hotel_data :=
    match docs with
    | [] => []
    | _ => join [NL; NL] (map page_content docs)
    end in
  system_prompt ← lift (_build_prompt self hotel_data query);
  response ← call (Invoke system_prompt) (llm self system_prompt);
  final_answer ← lift (answer_text response);
  _ ← emit (LogInfo (py "Processed query at ILLORA RETREATS: " ++ fmt query));
  mret (if truthy_str final_answer then final_answer else STAND_IN).

(** The body of the [try]. *)
Definition ask_try (self : ConciergeBot) (query user_type : option str) : io str :=
  if blocked query user_type then mret REFUSAL else answer self query.

(** The [except Exception as e] clause. *)
Definition ask_except (query : option str) (e : exn) : io str :=
  _ ← emit (Print (error_message query e));
  _ ← emit (LogError (error_message query e));
  mret FALLBACK.

Definition ask (self : ConciergeBot) (query user_type : option str) : io str :=
  try_except (ask_try self query user_type) (ask_except query).

End Ask.

(** Lowercasing of the ASCII letters, every other code point kept: what
    [str.lower] does on ASCII text. *)
Definition ascii_lower (s : str) : str :=
  map (fun c => if (65 <=? c) && (c <=? 90) then c + 32 else c) s.

(* ===================================================================== *)
(** * dashboard.py: files, helpers and tabs *)
(* ===================================================================== *)

(** A pandas table: column labels, and rows aligned with them. *)
Record DataFrame := { columns : list str; rows : list (list pyval) }.

(** The text of a file, up to what its readers make of it. *)
Inductive content :=
| JsonText (v : pyval)      (* the JSON text that [json.dump] writes for [v] *)
| OtherText (text : str).   (* any text that [json.load] rejects *)

(** A path names a file, or something [open] refuses (a directory, a file
    without permission). *)
Inductive node :=
| File (c : content)
| NoAccess.

(** What the page shows. *)
Inductive widget :=
| Dataframe (data : pyval)
| Table (df : DataFrame)
| Info (msg : str)
| Success (msg : str)
| Warning (msg : str).

Record world := { files : gmap string node; screen : list widget }.

(** A dashboard action: it may raise, and it changes files and screen. *)
Definition dash (A : Type) : Type := world -> result A * world.

#[global] Instance dash_ret : MRet dash := fun A a w => (Ok a, w).
#[global] Instance dash_bind : MBind dash := fun A B f m w =>
  match m w with
  | (Ok a, w') => f a w'
  | (Raise e, w') => (Raise e, w')
  end.

Definition raise {A : Type} (e : exn) : dash A := fun w => (Raise e, w).

(** A step that touches neither files nor screen. *)
Definition pure {A : Type} (r : result A) : dash A := fun w => (r, w).

(** [try: body except: handler(e)] in a dashboard action. *)
Definition dash_try {A : Type} (body : dash A) (handler : exn -> dash A) : dash A :=
  fun w =>
    match body w with
    | (Ok a, w') => (Ok a, w')
    | (Raise e, w') => handler e w'
    end.

Definition show (x : widget) : dash unit :=
  fun w => (Ok tt, {| files := files w; screen := screen w ++ [x] |}).

(** [os.path.exists(path)]. *)
Definition exists_path (path : string) : dash bool :=
  fun w => (Ok (bool_decide (is_Some (files w !! path))), w).

Definition OSError (what : string) : exn := Exn "OSError" (py what).
Definition JSONDecodeError : exn := Exn "JSONDecodeError" (py "Expecting value").

(** [open(path, "w")] followed by writing [c]: the file is replaced. *)
Definition write_file (path : string) (c : content) : dash unit :=
  fun w =>
    match files w !! path with
    | Some NoAccess => (Raise (OSError "cannot open for writing"), w)
    | _ => (Ok tt, {| files := <[path := File c]> (files w); screen := screen w |})
    end.

(** [open(path, "r")]: the content of the file to read. *)
Definition open_read (path : string) : dash content :=
  fun w =>
    match files w !! path with
    | Some (File c) => (Ok c, w)
    | Some NoAccess => (Raise (OSError "cannot open for reading"), w)
    | None => (Raise (Exn "FileNotFoundError" (py "No such file or directory")), w)
    end.

(** The value the JSON text of [v] decodes to: a tuple is written as an
    array, so it comes back as a list. *)
Fixpoint json_image (v : pyval) : pyval :=
  match v with
  | PList xs | PTuple xs => PList (map json_image xs)
  | PDict items => PDict (map (fun kv => (fst kv, json_image (snd kv))) items)
  | _ => v
  end.

(** [json.dump(data, f, indent=2)]: the text written. *)
Definition json_dump (data : pyval) : content := JsonText data.

(** [json.load(f)]. *)
Definition json_load (c : content) : result pyval :=
  match c with
  | JsonText v => Ok (json_image v)
  | OtherText _ => Raise JSONDecodeError
  end.

(** A value built without tuples: the shape of what [json.load] returns. *)
Fixpoint tuple_free (v : pyval) : bool :=
  match v with
  | PList xs => forallb tuple_free xs
  | PTuple _ => false
  | PDict items => forallb (fun kv => tuple_free (snd kv)) items
  | _ => true
  end.

Definition load_json (path : string) (default : pyval) : dash pyval :=
  present ← exists_path path;
  _ ← (if negb present then write_file path (json_dump default) else mret tt);
  c ← open_read path;
  dash_try (pure (json_load c)) (fun _ => mret default).

Definition save_json (path : string) (data : pyval) : dash unit :=
  write_file path (json_dump data).

(** [self._load_dos_donts()] of the QA agent, on the same files. *)
Definition _load_dos_donts (dos_donts_path : string) : dash pyval :=
  present ← exists_path dos_donts_path;
  if negb present then mret (PList [])
  else dash_try (c ← open_read dos_donts_path; pure (json_load c))
                (fun _ => mret (PList [])).

Definition QA_CSV : string := "data\qa_pairs.csv".
Definition MENU_FILE : string := "services\menu.json".
Definition CAMPAIGNS_FILE : string := "data\campaigns.json".
Definition DOSDONTS_FILE : string := "data\dos_donts.json".

(** [lst.append(x)]: only a list has the method. *)
Definition py_append (lst x : pyval) : result pyval :=
  match lst with
  | PList xs => Ok (PList (xs ++ [x]))
  | _ => Raise (AttributeError "object has no attribute 'append'")
  end.

(** The values of the widgets of the "create_campaign" form. *)
Record campaign_form (date : Type) := {
  name : str;
  desc : str;
  discount_type : str;
  discount_value : spec_float;
  start_date : date;
  end_date : date;
  active : bool
}.
Arguments name {date} _.
Arguments desc {date} _.
Arguments discount_type {date} _.
Arguments discount_value {date} _.
Arguments start_date {date} _.
Arguments end_date {date} _.
Arguments active {date} _.

Section Dashboard.

(** pandas, taken as given: [df.to_csv(path, index=False)] as the text it
    writes, [pd.read_csv(path)] on the text of a file, [pd.DataFrame(data)],
    and what [DataFrame.append] (pandas 1.x) returns when the new row and
    the table do not have the same columns. *)
Variable to_csv : DataFrame -> content.
Variable read_csv : content -> result DataFrame.
Variable frame_of : pyval -> result DataFrame.
Variable append_reshaped : DataFrame -> list (str * pyval) -> DataFrame.

(** [datetime.date] and its [isoformat()]. *)
Variable date : Type.
Variable isoformat : date -> str.

Definition ensure_csv (path : string) (cols : list str) : dash DataFrame :=
  present ← exists_path path;
  _ ← (if negb present
       then write_file path (to_csv {| columns := cols; rows := [] |})
       else mret tt);
  c ← open_read path;
  pure (read_csv c).

(** The row and the table have the same column labels. *)
Definition same_labels (cols : list str) (row : list (str * pyval)) : bool :=
  forallb (fun c => bool_decide (is_Some (dict_lookup c row))) cols
  && forallb (fun kv => bool_decide (fst kv ∈ cols)) row.

(** [df.append(row, ignore_index=True)] for a dict [row]: a new table,
    the row last. *)
Definition df_append (df : DataFrame) (row : list (str * pyval)) : DataFrame :=
  if same_labels (columns df) row
  then {| columns := columns df;
          rows := rows df
                  ++ [map (fun c => match dict_lookup c row with
                                    | Some v => v
                                    | None => PNone
                                    end) (columns df)] |}
  else append_reshaped df row.

(** The "Q&A Manager" tab; [submitted] holds the question and the answer
    when the form button was pressed. *)
Definition qa_tab (submitted : option (str * str)) : dash unit :=
  qa_df ← ensure_csv QA_CSV [py "question"; py "answer"];
  _ ← show (Table qa_df);
  match submitted with
  | Some (q, a) =>
      let qa_df := df_append qa_df [(py "question", PStr q); (py "answer", PStr a)] in
      _ ← write_file QA_CSV (to_csv qa_df);
      show (Success (py "Q&A added!"))
  | None => mret tt
  end.

(** The record built when the "create_campaign" form is submitted;
    [camp_id] is [str(uuid.uuid4())] and [now] is
    [datetime.utcnow().isoformat()]. *)
Definition new_campaign (f : campaign_form date) (camp_id now : str) : pyval :=
  PDict [(py "id", PStr camp_id);
         (py "name", PStr (name f));
         (py "description", PStr (desc f));
         (py "discount_type", PStr (discount_type f));
         (py "discount_value", PFloat (discount_value f));
         (py "start_date", PStr (isoformat (start_date f)));
         (py "end_date", PStr (isoformat (end_date f)));
         (py "active", PBool (active f));
         (py "created_at", PStr now)].

(** [st.dataframe(pd.DataFrame(data))] when [data] is truthy, else the
    notice. *)
Definition show_records (data : pyval) (notice : str) : dash unit :=
  if truthy data
  then df ← pure (frame_of data); show (Table df)
  else show (Info notice).

(** The "Campaigns Manager" tab; it returns the list it holds at the end. *)
Definition campaigns_tab (submitted : option (campaign_form date))
    (camp_id now : str) : dash pyval :=
  campaigns ← load_json CAMPAIGNS_FILE (PList []);
  _ ← show_records campaigns (py "No campaigns yet.");
  match submitted with
  | Some f =>
      campaigns ← pure (py_append campaigns (new_campaign f camp_id now));
      _ ← save_json CAMPAIGNS_FILE campaigns;
      _ ← show (Success (py "Campaign '" ++ name f ++ py "' created!"));
      mret campaigns
  | None => mret campaigns
  end.

(** The "Do's & Don'ts Manager" tab; [submitted] holds the two text areas
    when the form button was pressed. *)
Definition dos_donts_tab (submitted : option (str * str)) : dash pyval :=
  dos_donts ← load_json DOSDONTS_FILE (PList []);
  _ ← show_records dos_donts (py "No instructions added yet.");
  match submitted with
  | Some (do_text, dont_text) =>
      if truthy_str (strip do_text) || truthy_str (strip dont_text)
      then
        let new_entry := PDict [(py "do", PStr (strip do_text));
                                (py "dont", PStr (strip dont_text))] in
        dos_donts ← pure (py_append dos_donts new_entry);
        _ ← save_json DOSDONTS_FILE dos_donts;
        _ ← show (Success (py "Instruction added successfully!"));
        mret dos_donts
      else
        _ ← show (Warning (py "Please fill at least one field."));
        mret dos_donts
  | None => mret dos_donts
  end.

End Dashboard.

Arguments new_campaign {date} isoformat f camp_id now.
Arguments campaigns_tab frame_of {date} isoformat submitted camp_id now.

(** ** The analytics tab: parsing the log *)

(** The lines [for line in f] yields for a file opened in text mode: every
    ["\r\n"] and ["\r"] reads as ["\n"], and a line ends after its ["\n"]. *)
Fixpoint universal_newlines (text : str) : str :=
  match text with
  | [] => []
  | 13 :: rest =>
      NL :: match rest with
            | 10 :: rest' => universal_newlines rest'
            | _ => universal_newlines rest
            end
  | c :: rest => c :: universal_newlines rest
  end.

Fixpoint lines_of (text : str) : list str :=
  match text with
  | [] => []
  | c :: rest =>
      if c =? NL then [c] :: lines_of rest
      else match lines_of rest with
           | l :: ls => (c :: l) :: ls
           | [] => [[c]]
           end
  end.

Definition file_lines (text : str) : list str := lines_of (universal_newlines text).

Definition INTENT : str := py "Intent: ".
Definition UNKNOWN : str := py "Unknown".

(** The longest prefix the pattern [.+] can take: [.] is any character but
    the newline. *)
Fixpoint dots (s : str) : str :=
  match s with
  | [] => []
  | c :: rest => if c =? NL then [] else c :: dots rest
  end.

(** [re.search(r"Intent: (.+)", line)]: group 1 of the leftmost match. *)
Fixpoint search_intent (line : str) : option str :=
  match line with
  | [] => None
  | _ :: rest =>
      if starts_with INTENT line
      then match dots (drop (length INTENT) line) with
           | [] => search_intent rest
           | g => Some g
           end
      else search_intent rest
  end.

(** [parts[i]] for an index known to be in range. *)
Definition part (parts : list str) (i : nat) : str := nth i parts [].

(** One turn of the [for line in f] loop. *)
Definition log_step (log_lines : list (list str)) (line : str) : list (list str) :=
  let parts := map strip (split_on PIPE (strip line)) in
  if (8 <=? length parts)%nat
  then
    let timestamp := part parts 0 in
    let source := part parts 3 in
    let session_id := part parts 4 in
    let user_input := part parts 5 in
    let response := part parts 6 in
    let guest_type := part parts 7 in
    let intent := match search_intent line with
                  | Some g => g
                  | None => UNKNOWN
                  end in
    log_lines ++ [[timestamp; source; session_id; user_input; response; intent; guest_type]]
  else log_lines.

(** The rows collected from the lines of the log. *)
Definition parse_log (lines : list str) : list (list str) :=
  fold_left log_step lines [].

(** The rows of the analytics tab; [log] is the text of the log file,
    [None] when the file does not exist (the tab then stops). *)
Definition analytics_rows (log : option str) : option (list (list str)) :=
  match log with
  | None => None
  | Some text => Some (parse_log (file_lines text))
  end.

(* ===================================================================== *)
(** * The statements of the specification, as definitions *)
(* ===================================================================== *)

(** [t] occurs in [s]. *)
Definition occurs_in (t s : str) : Prop := exists pre post, s = pre ++ t ++ post.

(** The lowercased text of the query contains a restricted service term. *)
Definition mentions_restricted (lower : str -> str) (q : str) : Prop :=
  exists term, In term restricted_services /\ occurs_in term (lower q).

(** The hotel data of the prompt: the page contents, a blank line between. *)
Definition hotel_data_of (docs : list Document) : str :=
  join [NL; NL] (map page_content docs).

(** A field of a Do's/Don'ts entry as text: the empty string when the
    entry lacks it, nothing when the entry is no dict or the field no
    string. *)
Definition text_field (k : str) (entry : pyval) : option str :=
  match entry with
  | PDict items =>
      match dict_lookup k items with
      | None => Some []
      | Some (PStr s) => Some s
      | Some _ => None
      end
  | _ => None
  end.

Definition well_formed_entry (entry : pyval) : Prop :=
  is_Some (text_field (py "do") entry) /\ is_Some (text_field (py "dont") entry).

(** The lines an entry contributes to the rules section. *)
Definition rule_lines (entry : pyval) : str :=
  let do := strip (default [] (text_field (py "do") entry)) in
  let dont := strip (default [] (text_field (py "dont") entry)) in
  (if truthy_str do then do_line do else [])
  ++ (if truthy_str dont then dont_line dont else []).

(** The steps of [ask] that can fail, each with the exception it raises. *)
Inductive step_raises (self : ConciergeBot) (query : option str) (e : exn) : Prop :=
| retrieval_raises :
    retriever self query = Raise e -> step_raises self query e
| prompt_building_raises docs :
    retriever self query = Ok docs ->
    _build_prompt self (hotel_data_of docs) query = Raise e ->
    step_raises self query e
| model_call_raises docs prompt :
    retriever self query = Ok docs ->
    _build_prompt self (hotel_data_of docs) query = Ok prompt ->
    llm self prompt = Raise e ->
    step_raises self query e
| reading_answer_raises docs prompt response :
    retriever self query = Ok docs ->
    _build_prompt self (hotel_data_of docs) query = Ok prompt ->
    llm self prompt = Ok response ->
    answer_text response = Raise e ->
    step_raises self query e.

(** The fields of a log line, and the row the analytics tab keeps for it. *)
Definition parts_of (line : str) : list str := map strip (split_on PIPE (strip line)).

Definition kept (line : str) : bool := (8 <=? length (parts_of line))%nat.

Definition intent_of (line : str) : str :=
  match search_intent line with
  | Some g => g
  | None => UNKNOWN
  end.

Definition row_of (line : str) : list str :=
  let parts := parts_of line in
  [part parts 0; part parts 3; part parts 4; part parts 5; part parts 6;
   intent_of line; part parts 7].

(** A match of the pattern ["Intent: (.+)"] in [line]: after [pre] comes
    the literal, then the group [g], one character at least and no
    newline, as long as it can be. *)
Definition intent_match (line pre g post : str) : Prop :=
  line = pre ++ INTENT ++ g ++ post
  /\ g <> []
  /\ ~ In NL g
  /\ (post = [] \/ exists post', post = NL :: post').

(** A bot whose services always answer: one chunk, and a fixed reply. *)
Definition scripted_bot (reply : result Response) (rules : pyval) : ConciergeBot :=
  {| retriever := fun _ => Ok [ {| page_content := py "Breakfast is served from 7 am." |} ];
     llm := fun _ => reply;
     dos_donts := rules |}.

(** Induction on values, through the lists inside them. *)
Section pyval_induction.
Variable P : pyval -> Prop.
Hypothesis HNone : P PNone.
Hypothesis HBool : forall b, P (PBool b).
Hypothesis HInt : forall n, P (PInt n).
Hypothesis HFloat : forall x, P (PFloat x).
Hypothesis HStr : forall s, P (PStr s).
Hypothesis HList : forall xs, Forall P xs -> P (PList xs).
Hypothesis HTuple : forall xs, Forall P xs -> P (PTuple xs).
Hypothesis HDict : forall items, Forall (fun kv => P (snd kv)) items -> P (PDict items).

Fixpoint pyval_nested_ind (v : pyval) : P v :=
  match v with
  | PNone => HNone
  | PBool b => HBool b
  | PInt n => HInt n
  | PFloat x => HFloat x
  | PStr s => HStr s
  | PList xs =>
      HList xs ((fix go (l : list pyval) : Forall P l :=
                   match l with
                   | [] => @List.Forall_nil _ P
                   | x :: r => @List.Forall_cons _ P x r (pyval_nested_ind x) (go r)
                   end) xs)
  | PTuple xs =>
      HTuple xs ((fix go (l : list pyval) : Forall P l :=
                    match l with
                    | [] => @List.Forall_nil _ P
                    | x :: r => @List.Forall_cons _ P x r (pyval_nested_ind x) (go r)
                    end) xs)
  | PDict items =>
      HDict items
        ((fix go (l : list (str * pyval)) : Forall (fun kv => P (snd kv)) l :=
            match l with
            | [] => @List.Forall_nil _ _
            | kv :: r =>
                @List.Forall_cons _ (fun kv => P (snd kv)) kv r (pyval_nested_ind (snd kv)) (go r)
            end) items)
  end.
End pyval_induction.

(** What [ask] returns for the text read from the response. *)
Definition final_of (final_answer : str) : str :=
  if truthy_str final_answer then final_answer else STAND_IN.


Definition spa_query : option str := Some (py "Can I use the SPA today?").

Definition offline_bot : ConciergeBot :=
  {| retriever := fun _ => Raise (Exn "ConnectionError" (py "index unavailable"));
     llm := fun _ => Ok (Plain []);
     dos_donts := PList [] |}.

(** The world [w] with the file at [path] replaced. *)
Definition with_file (w : world) (path : string) (c : content) : world :=
  {| files := <[path := File c]> (files w); screen := screen w |}.

Definition empty_world : world := {| files := ∅; screen := [] |}.

(** The entry built by the "add_dos_donts" form. *)
Definition dos_donts_entry (do_text dont_text : str) : pyval :=
  PDict [(py "do", PStr (strip do_text)); (py "dont", PStr (strip dont_text))].

(** Stand-ins for pandas in the examples: a comma-separated text of string
    cells, and its reader. *)
Definition cell_text (v : pyval) : str :=
  match v with
  | PStr s => s
  | _ => []
  end.

Definition sample_to_csv (df : DataFrame) : content :=
  OtherText (join [NL] (map (join [44]) (columns df :: map (map cell_text) (rows df)))
             ++ [NL]).

Definition sample_read_csv (c : content) : result DataFrame :=
  match c with
  | OtherText text =>
      match List.filter truthy_str (split_on NL text) with
      | header :: records =>
          Ok {| columns := split_on 44 header;
                rows := map (fun l => map PStr (split_on 44 l)) records |}
      | [] => Raise (Exn "EmptyDataError" (py "No columns to parse from file"))
      end
  | JsonText _ => Raise (Exn "ParserError" (py "Error tokenizing data"))
  end.

Definition sample_frame (data : pyval) : result DataFrame :=
  Ok {| columns := []; rows := [] |}.

Definition monsoon : pyval :=
  PDict [(py "id", PStr (py "c-1")); (py "name", PStr (py "Monsoon"))].

Definition spa_week : campaign_form str :=
  {| name := py "Spa week"; desc := py "Two for one";
     discount_type := py "percent"; discount_value := S754_finite false 5 1;
     start_date := py "2025-07-01"; end_date := py "2025-07-08"; active := true |}.

Definition one_campaign : world :=
  with_file empty_world CAMPAIGNS_FILE (JsonText (PList [monsoon])).

(** ** Further definitions: start-up, the menu tab, the filters *)

Definition is_retrieve (ev : event) : bool :=
  match ev with Retrieve _ => true | _ => false end.

Definition is_invoke (ev : event) : bool :=
  match ev with Invoke _ => true | _ => false end.

(** Rules with which [_build_prompt] can work: nothing (any falsy value),
    or a list or tuple of well-formed entries. *)
Definition usable_rules (rules : pyval) : Prop :=
  truthy rules = false
  \/ exists entries,
       (rules = PList entries \/ rules = PTuple entries)
       /\ Forall well_formed_entry entries.

(** [Config]: the two retriever settings are read with [getattr] and a
    default, so either may be absent. *)
Record Config := {
  RETRIEVER_K : option Z;
  RETRIEVER_FETCH_K : option Z;
  OPENAI_API_KEY : str;
  OPENAI_MODEL : str;
  GROQ_API_BASE : str
}.

(** The vector store: [as_retriever(search_type=..., search_kwargs={"k": k,
    "fetch_k": fetch_k})] gives the retriever, here its [invoke]. *)
Record VectorStore := {
  as_retriever : str -> Z -> Z -> option str -> result (list Document)
}.

Definition DOS_DONTS_PATH : string := "data/dos_donts.json".

(** The warning [_load_dos_donts] logs when opening or decoding fails. *)
Definition load_warnings (path : string) (w : world) : list event :=
  match files w !! path with
  | None => []
  | Some _ =>
      match fst ((c ← open_read path; pure (json_load c)) w) with
      | Ok _ => []
      | Raise e => [LogWarning (py "Failed to load Do's & Don'ts file: " ++ exn_text e)]
      end
  end.

Section Init.

(** [create_vector_store()] and the [ChatOpenAI] constructor (api key,
    model, base url, temperature), each returning or raising. *)
Variable create_vector_store : result VectorStore.
Variable ChatOpenAI : str -> str -> str -> Z -> result (str -> result Response).

(** The body of the [try] of [__init__]. *)
Definition init_try (cfg : Config) (w : world) (t : list event)
    : result ConciergeBot * world * list event :=
  match create_vector_store with
  | Raise e => (Raise e, w, t)
  | Ok vector_store =>
      let k := default 5%Z (RETRIEVER_K cfg) in
      let fetch_k := default 20%Z (RETRIEVER_FETCH_K cfg) in
      let retriever := as_retriever vector_store (py "mmr") k fetch_k in
      match ChatOpenAI (OPENAI_API_KEY cfg) (OPENAI_MODEL cfg) (GROQ_API_BASE cfg) 0%Z with
      | Raise e => (Raise e, w, t)
      | Ok llm =>
          match _load_dos_donts DOS_DONTS_PATH w with
          | (Raise e, w') => (Raise e, w', t ++ load_warnings DOS_DONTS_PATH w)
          | (Ok dos_donts, w') =>
              (Ok {| retriever := retriever; llm := llm; dos_donts := dos_donts |},
               w',
               t ++ load_warnings DOS_DONTS_PATH w
                 ++ [LogInfo (py "ILLORA RETREATS QA agent initialized successfully.")])
          end
      end
  end.

(** [ConciergeBot.__init__]: an exception is logged and raised again. *)
Definition __init__ (cfg : Config) (w : world) (t : list event)
    : result ConciergeBot * world * list event :=
  match init_try cfg w t with
  | (Raise e, w', t') =>
      (Raise e, w', t' ++ [LogError (py "Error initializing QA agent: " ++ exn_text e)])
  | ok => ok
  end.

End Init.

(** The action [m] leaves every file but the one at [path] as it was. *)
Definition touches_only {A : Type} (path : string) (m : dash A) : Prop :=
  forall w other, other <> path -> files (snd (m w)) !! other = files w !! other.

Definition default_menu : pyval :=
  PDict [(py "add_ons", PDict []); (py "rooms", PDict []); (py "complimentary", PDict [])].

(** [v.items()]: only a dict has the method. *)
Definition py_items (v : pyval) : result (list (str * pyval)) :=
  match v with
  | PDict items => Ok items
  | _ => Raise (AttributeError "object has no attribute 'items'")
  end.

Section Menu.

Variable frame_of : pyval -> result DataFrame.

(** [str.title]. *)
Variable title : str -> str.

(** What one expander of the menu shows. *)
Definition menu_category (items : pyval) : dash unit :=
  match items with
  | PDict kvs =>
      df_items ← pure (frame_of (PList (map (fun kv => PDict [(py "key", PStr (fst kv));
                                                              (py "price", snd kv)]) kvs)));
      show (Table df_items)
  | PList _ =>
      df_items ← pure (frame_of items);
      show (Table df_items)
  | _ => show (Info (py "Empty category"))
  end.

(** The loop over [menu.items()]; it returns the titles of the expanders. *)
Fixpoint menu_loop (categories : list (str * pyval)) : dash (list str) :=
  match categories with
  | [] => mret []
  | (cat, items) :: rest =>
      _ ← menu_category items;
      titles ← menu_loop rest;
      mret (title cat :: titles)
  end.

(** The "Menu Manager" tab. *)
Definition menu_tab : dash (list str) :=
  menu ← load_json MENU_FILE default_menu;
  categories ← pure (py_items menu);
  menu_loop categories.

End Menu.

(** [str.title] on ASCII text: the first letter of every run of letters in
    upper case, the others in lower case. *)
Fixpoint title_from (inside_word : bool) (s : str) : str :=
  match s with
  | [] => []
  | c :: rest =>
      if (65 <=? c) && (c <=? 90)
      then (if inside_word then c + 32 else c) :: title_from true rest
      else if (97 <=? c) && (c <=? 122)
      then (if inside_word then c else c - 32) :: title_from true rest
      else c :: title_from false rest
  end.

Definition ascii_title (s : str) : str := title_from false s.

Definition damaged_campaigns : world :=
  with_file empty_world CAMPAIGNS_FILE (OtherText (py "[{ id: c-1 ")).


Definition pool_week : campaign_form str :=
  {| name := py "Pool week"; desc := py "Free towels";
     discount_type := py "fixed"; discount_value := S754_finite false 5 2;
     start_date := py "2025-08-01"; end_date := py "2025-08-08"; active := false |}.

Definition CR : char := 13.



Section Filters.

Variable lower : str -> str.


End Filters.



Definition line_shape (line : str) : Prop :=
  line <> []
  /\ exists body, ~ In NL body /\ (line = body ++ [NL] \/ line = body).

Definition sample_log : str :=
  py "2025-06-30 10:00:00 | INFO | QAAgent | web | s1 | hi | hello | guest | Intent: greet |  "
  ++ [CR; NL] ++ py "no fields here" ++ [NL].

(* ===================================================================== *)
(** * Strings *)
(* ===================================================================== *)

Lemma starts_with_spec (p s : str) :
  starts_with p s = true <-> exists post, s = p ++ post.
Proof.
  revert s. induction p as [|a p IH]; intros s; simpl.
  - split; [eauto | reflexivity].
  - destruct s as [|b s].
    + split; [discriminate | intros [post H]; discriminate H].
    + rewrite andb_true_iff, N.eqb_eq, IH. split.
      * intros [-> [post ->]]. eauto.
      * intros [post H]. injection H as -> ->. eauto.
Qed.

Lemma contains_spec (t s : str) : contains t s = true <-> occurs_in t s.
Proof.
  unfold occurs_in. induction s as [|c s IH].
  - simpl. rewrite orb_false_r, starts_with_spec. split.
    + intros [post H]. exists [], post. exact H.
    + intros [pre [post H]]. destruct pre; [eauto | discriminate H].
  - cbn [contains]. rewrite orb_true_iff, starts_with_spec, IH. split.
    + intros [[post H] | [pre [post H]]].
      * exists [], post. exact H.
      * exists (c :: pre), post. simpl. now rewrite H.
    + intros [pre [post H]]. destruct pre as [|c' pre].
      * left. exists post. exact H.
      * right. injection H as _ H. eauto.
Qed.

Lemma lstrip_no_leading_space (s : str) c r :
  lstrip s = c :: r -> is_space c = false.
Proof.
  induction s as [|a s IH]; simpl; [discriminate|].
  destruct (is_space a) eqn:E; [exact IH|].
  intros H. injection H as <- _. exact E.
Qed.

Lemma lstrip_suffix (s : str) : exists pre, s = pre ++ lstrip s /\ forallb is_space pre = true.
Proof.
  induction s as [|a s [pre [IH1 IH2]]]; simpl.
  - exists []. split; reflexivity.
  - destruct (is_space a) eqn:E.
    + exists (a :: pre). simpl. rewrite E, IH2. split; [now f_equal | reflexivity].
    + exists []. split; reflexivity.
Qed.

(** [strip] removes white space at both ends and nothing else. *)
Lemma strip_spec (s : str) :
  exists pre post,
    s = pre ++ strip s ++ post
    /\ forallb is_space pre = true /\ forallb is_space post = true
    /\ (forall c r, strip s = c :: r -> is_space c = false)
    /\ (forall c r, strip s = r ++ [c] -> is_space c = false).
Proof.
  destruct (lstrip_suffix s) as [pre [Hs Hpre]].
  destruct (lstrip_suffix (rev (lstrip s))) as [post [Hr Hpost]].
  exists pre, (rev post). unfold strip, rstrip.
  assert (Hl : lstrip s = rev (lstrip (rev (lstrip s))) ++ rev post).
  { rewrite <- rev_app_distr, <- Hr. now rewrite rev_involutive. }
  repeat split.
  - now rewrite <- Hl.
  - exact Hpre.
  - rewrite forallb_forall in *. intros x Hx. apply Hpost. now apply in_rev.
  - intros c r H.
    destruct (lstrip s) as [|c0 r0] eqn:E0; [discriminate H|].
    assert (c = c0).
    { rewrite H in Hl. simpl in Hl. now injection Hl. }
    subst c0. eapply lstrip_no_leading_space. exact E0.
  - intros c r H. apply (f_equal (@rev _)) in H.
    rewrite rev_involutive, rev_app_distr in H. simpl in H.
    eapply lstrip_no_leading_space. exact H.
Qed.

Lemma join_nil (sep : str) : join sep [] = [].
Proof. reflexivity. Qed.

(* ===================================================================== *)
(** * The QA agent *)
(* ===================================================================== *)

Ltac run_io :=
  unfold try_except, mbind, io_bind, mret, io_ret, call, lift, emit; simpl.

Lemma hotel_data_of_docs (docs : list Document) :
  match docs with [] => [] | _ => join [NL; NL] (map page_content docs) end
  = hotel_data_of docs.
Proof. destruct docs; reflexivity. Qed.

Lemma ask_blocked lower self query user_type t :
  blocked lower query user_type = true ->
  ask lower self query user_type t = (Ok REFUSAL, t).
Proof. intros H. unfold ask, ask_try. run_io. now rewrite H. Qed.

Lemma ask_unblocked lower self query user_type t :
  blocked lower query user_type = false ->
  ask lower self query user_type t
  = try_except (answer self query) (ask_except query) t.
Proof. intros H. unfold ask, ask_try, try_except. now rewrite H. Qed.

Lemma answer_cases self query t :
  (exists e evs, answer self query t = (Raise e, t ++ evs) /\ step_raises self query e)
  \/ (exists docs prompt response final_answer,
        retriever self query = Ok docs
        /\ _build_prompt self (hotel_data_of docs) query = Ok prompt
        /\ llm self prompt = Ok response
        /\ answer_text response = Ok final_answer
        /\ answer self query t
           = (Ok (final_of final_answer),
              t ++ [Retrieve query; Invoke prompt;
                    LogInfo (py "Processed query at ILLORA RETREATS: " ++ fmt query)])).
Proof.
  unfold answer. run_io.
  destruct (retriever self query) as [docs|e] eqn:Hr.
  2:{ left. exists e, [Retrieve query]. split; [reflexivity | now constructor 1]. }
  rewrite hotel_data_of_docs.
  destruct (_build_prompt self (hotel_data_of docs) query) as [prompt|e] eqn:Hp.
  2:{ left. exists e, [Retrieve query]. split; [reflexivity | econstructor 2; eauto]. }
  destruct (llm self prompt) as [response|e] eqn:Hl.
  2:{ left. exists e, [Retrieve query; Invoke prompt].
      rewrite <- app_assoc. split; [reflexivity | econstructor 3; eauto]. }
  destruct (answer_text response) as [final_answer|e] eqn:Ha.
  2:{ left. exists e, [Retrieve query; Invoke prompt].
      rewrite <- app_assoc. split; [reflexivity | econstructor 4; eauto]. }
  right. exists docs, prompt, response, final_answer.
  repeat split; try assumption. unfold final_of.
  now rewrite <- !app_assoc.
Qed.


Lemma is_non_guest_spec user_type :
  is_non_guest user_type = true <-> user_type = Some (py "non-guest").
Proof.
  destruct user_type as [u|]; simpl.
  - rewrite bool_decide_eq_true. split; [now intros -> | now intros [= ->]].
  - split; discriminate.
Qed.




Lemma FALLBACK_not_REFUSAL : FALLBACK <> REFUSAL.
Proof. vm_compute. discriminate. Qed.

Lemma STAND_IN_not_REFUSAL : STAND_IN <> REFUSAL.
Proof. vm_compute. discriminate. Qed.





(** C1, as the code has it. A non-guest whose lowercased query mentions a
    restricted service gets the refusal; for any other user type the
    guard is not taken, [ask] is the answering pipeline under its
    handler, and the refusal text comes back only when the model's own
    answer is that text. *)
Theorem ask_access_rule lower self query user_type t :
  (forall q, query = Some q -> user_type = Some (py "non-guest") ->
             mentions_restricted lower q ->
             ask lower self query user_type t = (Ok REFUSAL, t))
  /\ (user_type <> Some (py "non-guest") ->
      ask lower self query user_type t
      = try_except (answer self query) (ask_except query) t
      /\ (fst (ask lower self query user_type t) = Ok REFUSAL ->
          exists prompt response,
            llm self prompt = Ok response /\ answer_text response = Ok REFUSAL)).
Proof.
  split.
  - intros q -> Hu (term & Hin & Hocc). apply ask_blocked.
    unfold blocked. apply andb_true_iff. split.
    + now apply is_non_guest_spec.
    + apply existsb_exists. exists term. split; [exact Hin|].
      now apply contains_spec.
  - intros Hu.
    assert (Hb : blocked lower query user_type = false).
    { unfold blocked. destruct (is_non_guest user_type) eqn:E; [|reflexivity].
      apply is_non_guest_spec in E. contradiction. }
    split; [now apply ask_unblocked|].
    rewrite ask_unblocked by exact Hb. unfold try_except.
    destruct (answer_cases self query t)
      as [(e & evs & -> & _) | (docs & prompt & response & final & _ & _ & Hl & Ha & ->)].
    + unfold ask_except. run_io. cbn [fst]. intros H. exfalso.
      apply FALLBACK_not_REFUSAL. congruence.
    + cbn [fst]. intros H. injection H as H.
      exists prompt, response. split; [exact Hl|].
      rewrite Ha. f_equal. unfold final_of in H.
      destruct (truthy_str final); [exact H | now destruct STAND_IN_not_REFUSAL].
Qed.

Lemma rules_step_well_formed rules_text entry :
  well_formed_entry entry ->
  rules_step rules_text entry = Ok (rules_text ++ rule_lines entry).
Proof.
  intros [[d Hd] [n Hn]]. unfold rules_step, rule_lines. rewrite Hd, Hn. simpl.
  destruct entry as [| | | | | | |items]; try discriminate Hd.
  unfold text_field in Hd, Hn. unfold py_get, mbind, result_bind.
  destruct (dict_lookup (py "do") items) as [[]|]; try discriminate Hd;
    destruct (dict_lookup (py "dont") items) as [[]|]; try discriminate Hn;
    injection Hd as Hd; injection Hn as Hn; subst; cbn [py_strip];
    repeat match goal with
           | |- context [if truthy_str ?x then _ else _] => destruct (truthy_str x)
           end;
    rewrite ?app_nil_r, <- ?app_assoc; reflexivity.
Qed.

Lemma rules_loop_well_formed entries : forall rules_text,
  Forall well_formed_entry entries ->
  rules_loop rules_text entries = Ok (rules_text ++ concat (map rule_lines entries)).
Proof.
  induction entries as [|entry rest IH]; intros rules_text H; simpl.
  - now rewrite app_nil_r.
  - inversion H as [|? ? Hentry Hrest]; subst.
    rewrite rules_step_well_formed by exact Hentry.
    unfold mbind, result_bind. rewrite IH by exact Hrest.
    now rewrite <- app_assoc.
Qed.



(** The rule on a concrete query, for a non-guest and for a guest. *)
Lemma ask_access_rule_witness :
  ask ascii_lower (scripted_bot (Ok (Message (PStr (py "Yes.")))) (PList []))
      spa_query (Some (py "non-guest")) []
  = (Ok REFUSAL, [])
  /\ fst (ask ascii_lower (scripted_bot (Ok (Message (PStr (py "Yes.")))) (PList []))
              spa_query (Some (py "guest")) [])
     = Ok (py "Yes.").
Proof.
  split.
  - apply (ask_access_rule ascii_lower
             (scripted_bot (Ok (Message (PStr (py "Yes.")))) (PList []))
             spa_query (Some (py "non-guest")) [])
      with (q := py "Can I use the SPA today?"); [reflexivity | reflexivity |].
    exists (py "spa"). split.
    + right. left. reflexivity.
    + exists (py "can i use the "), (py " today?"). reflexivity.
  - destruct (ask_access_rule ascii_lower
                (scripted_bot (Ok (Message (PStr (py "Yes.")))) (PList []))
                spa_query (Some (py "guest")) []) as [_ H].
    destruct H as [-> _]; [discriminate | reflexivity].
Defined.

(** C1 as stated fails: a guest does get the refusal text when the model
    answers with it. *)
Lemma refusal_text_from_model :
  Some (py "guest") <> Some (py "non-guest")
  /\ fst (ask ascii_lower (scripted_bot (Ok (Message (PStr REFUSAL))) (PList []))
              (Some (py "When is breakfast?")) (Some (py "guest")) [])
     = Ok REFUSAL.
Proof. split; [discriminate | reflexivity]. Qed.




(** Prompt building does raise: an entry that is no dict has no [get]. *)
Example build_prompt_raises :
  _build_prompt (scripted_bot (Ok (Plain [])) (PList [PStr (py "Be kind")])) [] None
  = Raise (AttributeError "object has no attribute 'get'").
Proof. reflexivity. Qed.

(* ===================================================================== *)
(** * The analytics tab *)
(* ===================================================================== *)

Lemma dots_decompose (s : str) :
  exists post, s = dots s ++ post /\ ~ In NL (dots s)
               /\ (post = [] \/ exists post', post = NL :: post').
Proof.
  induction s as [|c s (post & Hs & Hn & Hp)]; simpl.
  - exists []. repeat split; [tauto | now left].
  - destruct (c =? NL) eqn:E.
    + apply N.eqb_eq in E. subst c. exists (NL :: s).
      repeat split; [tauto | right; eauto].
    + apply N.eqb_neq in E. exists post. repeat split.
      * simpl. now f_equal.
      * simpl. intros [H | H]; [congruence | tauto].
      * exact Hp.
Qed.

Lemma dots_unique (g post : str) :
  ~ In NL g -> (post = [] \/ exists post', post = NL :: post') ->
  dots (g ++ post) = g.
Proof.
  intros Hn Hp. induction g as [|c g IH]; simpl.
  - destruct Hp as [-> | [post' ->]]; reflexivity.
  - destruct (c =? NL) eqn:E.
    + apply N.eqb_eq in E. subst c. exfalso. apply Hn. now left.
    + f_equal. apply IH. intros H. apply Hn. now right.
Qed.

Lemma length_INTENT : length INTENT = 8%nat.
Proof. reflexivity. Qed.

(** A match that starts at the first character. *)
Lemma match_at_start (line g post : str) :
  intent_match line [] g post <->
  starts_with INTENT line = true /\ dots (drop (length INTENT) line) = g /\ g <> []
  /\ line = INTENT ++ g ++ post.
Proof.
  unfold intent_match. cbn [app]. split.
  - intros (-> & Hg & Hn & Hp). split; [|split; [|split]].
    + apply starts_with_spec. eauto.
    + rewrite drop_app_length. now apply dots_unique.
    + exact Hg.
    + reflexivity.
  - intros (Hs & Hd & Hg & ->). split; [|split; [|split]].
    + reflexivity.
    + exact Hg.
    + rewrite drop_app_length in Hd.
      destruct (dots_decompose (g ++ post)) as (post' & _ & Hn & _).
      now rewrite Hd in Hn.
    + rewrite drop_app_length in Hd.
      destruct (dots_decompose (g ++ post)) as (post' & He & _ & Hp).
      rewrite Hd in He. apply app_inv_head in He. now subst post'.
Qed.

Lemma match_later (c : char) (line pre g post : str) :
  intent_match (c :: line) (c :: pre) g post <-> intent_match line pre g post.
Proof.
  unfold intent_match. cbn [app]. split.
  - intros (H & Hr). injection H as H. now split.
  - intros (-> & Hr). now split.
Qed.

Lemma match_head (c c' : char) (line pre g post : str) :
  intent_match (c :: line) (c' :: pre) g post -> c' = c.
Proof. intros (H & _). cbn [app] in H. now injection H. Qed.

Lemma search_intent_sound (line g : str) :
  search_intent line = Some g ->
  exists pre post,
    intent_match line pre g post
    /\ forall pre' g' post', intent_match line pre' g' post' ->
                             (length pre <= length pre')%nat.
Proof.
  induction line as [|c line IH]; [discriminate|].
  assert (Hlater : search_intent line = Some g ->
                   (forall g' post', ~ intent_match (c :: line) [] g' post') ->
                   exists pre post,
                     intent_match (c :: line) pre g post
                     /\ forall pre' g' post', intent_match (c :: line) pre' g' post' ->
                                              (length pre <= length pre')%nat).
  { intros Hs Hno. destruct (IH Hs) as (pre & post & Hm & Hleft).
    exists (c :: pre), post. split; [now apply (proj2 (match_later _ _ _ _ _))|].
    intros [|c' pre'] g' post' Hm'.
    - now destruct (Hno g' post').
    - pose proof (match_head _ _ _ _ _ _ Hm') as ->.
      apply (proj1 (match_later _ _ _ _ _)) in Hm'. cbn [length]. apply le_n_S.
      eapply Hleft. exact Hm'. }
  cbn [search_intent].
  destruct (starts_with INTENT (c :: line)) eqn:Hs.
  - destruct (dots (drop (length INTENT) (c :: line))) as [|d ds] eqn:Hd.
    + intros H. apply Hlater; [exact H|].
      intros g' post' Hm. apply (proj1 (match_at_start _ _ _)) in Hm as (_ & Hd' & Hg & _).
      rewrite Hd in Hd'. congruence.
    + intros [= <-]. apply starts_with_spec in Hs as [rest Hs].
      destruct (dots_decompose (drop (length INTENT) (c :: line)))
        as (post & He & Hn & Hp).
      rewrite Hd in He, Hn.
      exists [], post. split.
      * apply (proj2 (match_at_start _ _ _)). split; [|split; [|split]].
        -- apply starts_with_spec. eauto.
        -- exact Hd.
        -- discriminate.
        -- rewrite Hs in He |- *. rewrite drop_app_length in He. now rewrite He.
      * intros. cbn [length]. lia.
  - intros H. apply Hlater; [exact H|].
    intros g' post' Hm. apply (proj1 (match_at_start _ _ _)) in Hm as (Hs' & _). congruence.
Qed.

Lemma search_intent_complete (line pre g post : str) :
  intent_match line pre g post -> is_Some (search_intent line).
Proof.
  revert pre. induction line as [|c line IH]; intros pre Hm.
  - destruct Hm as (H & Hg & _). exfalso.
    destruct pre; cbn [app] in H; [|discriminate H].
    vm_compute in H. discriminate H.
  - cbn [search_intent]. destruct pre as [|c' pre].
    + apply (proj1 (match_at_start _ _ _)) in Hm as (Hs & Hd & Hg & _).
      rewrite Hs, Hd. destruct g; [contradiction | eauto].
    + pose proof (match_head _ _ _ _ _ _ Hm) as ->.
      apply (proj1 (match_later _ _ _ _ _)) in Hm. apply IH in Hm.
      destruct (starts_with INTENT (c :: line)); [|exact Hm].
      destruct (dots _); [exact Hm | eauto].
Qed.

Lemma fold_log_step (lines : list str) : forall log_lines,
  fold_left log_step lines log_lines
  = log_lines ++ map row_of (List.filter kept lines).
Proof.
  induction lines as [|line lines IH]; intros log_lines; simpl.
  - now rewrite app_nil_r.
  - rewrite IH. unfold log_step at 1. fold (parts_of line). fold (kept line).
    destruct (kept line); simpl; [|reflexivity].
    now rewrite <- app_assoc.
Qed.

(** C6. The analytics tab keeps exactly the lines with at least 8 stripped
    fields between "|", takes the fields 0, 3, 4, 5, 6 and 7 of each, and
    sets the intent to the group of the leftmost match of "Intent: (.+)"
    in the line, or to "Unknown" when the pattern has no match. *)
Theorem parse_log_rows (lines : list str) :
  parse_log lines = map row_of (List.filter kept lines)
  /\ (forall line, kept line = true <->
                   (8 <= length (map strip (split_on PIPE (strip line))))%nat)
  /\ (forall line,
        row_of line
        = [part (parts_of line) 0; part (parts_of line) 3; part (parts_of line) 4;
           part (parts_of line) 5; part (parts_of line) 6; intent_of line;
           part (parts_of line) 7])
  /\ (forall line g, search_intent line = Some g ->
        intent_of line = g
        /\ exists pre post,
             intent_match line pre g post
             /\ forall pre' g' post', intent_match line pre' g' post' ->
                                      (length pre <= length pre')%nat)
  /\ (forall line,
        (forall pre g post, ~ intent_match line pre g post) <->
        search_intent line = None)
  /\ (forall line, search_intent line = None -> intent_of line = UNKNOWN).
Proof.
  split; [apply (fold_log_step lines [])|].
  split; [intros line; unfold kept, parts_of; apply Nat.leb_le|].
  split; [reflexivity|].
  split.
  { intros line g H. split; [unfold intent_of; now rewrite H|].
    now apply search_intent_sound. }
  split.
  { intros line. split.
    - intros Hno. destruct (search_intent line) as [g|] eqn:E; [|reflexivity].
      destruct (search_intent_sound line g E) as (pre & post & Hm & _).
      now destruct (Hno pre g post).
    - intros Hnone pre g post Hm. apply search_intent_complete in Hm as [g' Hg'].
      congruence. }
  intros line H. unfold intent_of. now rewrite H.
Qed.

(* ===================================================================== *)
(** * Files and forms of the dashboard *)
(* ===================================================================== *)

Ltac run_dash :=
  unfold dash_try, pure, show, exists_path, write_file, open_read,
    mbind, dash_bind, mret, dash_ret; cbn [files screen negb fst snd].

Lemma json_image_tuple_free (v : pyval) : tuple_free v = true -> json_image v = v.
Proof.
  induction v as [| | | | |xs IH|xs IH|items IH] using pyval_nested_ind;
    cbn [tuple_free json_image]; try reflexivity; try discriminate.
  - intros H. f_equal. induction IH as [|x xs Hx _ IHxs]; [reflexivity|].
    cbn [forallb] in H. apply andb_true_iff in H as [H1 H2].
    cbn [map]. now rewrite Hx, IHxs.
  - intros H. f_equal. induction IH as [|[k x] items Hx _ IHitems]; [reflexivity|].
    cbn [forallb snd] in H. apply andb_true_iff in H as [H1 H2].
    cbn [map fst snd] in *. now rewrite Hx, IHitems.
Qed.

Lemma json_image_is_tuple_free (v : pyval) : tuple_free (json_image v) = true.
Proof.
  induction v as [| | | | |xs IH|xs IH|items IH] using pyval_nested_ind;
    cbn [tuple_free json_image]; try reflexivity.
  - induction IH as [|x xs Hx _ IHxs]; [reflexivity|].
    cbn [map forallb]. now rewrite Hx, IHxs.
  - induction IH as [|x xs Hx _ IHxs]; [reflexivity|].
    cbn [map forallb]. now rewrite Hx, IHxs.
  - induction IH as [|[k x] items Hx _ IHitems]; [reflexivity|].
    cbn [map forallb fst snd] in *. now rewrite Hx, IHitems.
Qed.

Lemma json_image_idempotent (v : pyval) : json_image (json_image v) = json_image v.
Proof. apply json_image_tuple_free, json_image_is_tuple_free. Qed.

Lemma load_json_absent path default w :
  files w !! path = None ->
  load_json path default w = (Ok (json_image default), with_file w path (JsonText default)).
Proof.
  intros H. unfold load_json, json_dump. run_dash. rewrite H.
  rewrite bool_decide_eq_false_2 by (intros [x Hx]; discriminate Hx).
  cbn [negb]. rewrite H. cbn [files]. now rewrite lookup_insert_eq.
Qed.

Lemma load_json_present path default w c :
  files w !! path = Some (File c) ->
  load_json path default w
  = (Ok match json_load c with Ok v => v | Raise _ => default end, w).
Proof.
  intros H. unfold load_json. run_dash. rewrite H.
  rewrite bool_decide_eq_true_2 by eauto. cbn [negb]. rewrite H.
  now destruct (json_load c).
Qed.

Lemma load_json_no_access path default w :
  files w !! path = Some NoAccess ->
  load_json path default w = (Raise (OSError "cannot open for reading"), w).
Proof.
  intros H. unfold load_json. run_dash. rewrite H.
  rewrite bool_decide_eq_true_2 by eauto. cbn [negb]. now rewrite H.
Qed.

Lemma load_json_ok path default w v w1 :
  load_json path default w = (Ok v, w1) ->
  screen w1 = screen w
  /\ exists c, files w1 !! path = Some (File c)
               /\ v = match json_load c with Ok x => x | Raise _ => default end.
Proof.
  destruct (files w !! path) as [[c|]|] eqn:H.
  - rewrite (load_json_present _ _ _ _ H). intros [= <- <-]. eauto.
  - rewrite (load_json_no_access _ _ _ H). discriminate.
  - rewrite (load_json_absent _ _ _ H). intros [= <- <-]. split; [reflexivity|].
    exists (JsonText default). cbn [with_file files]. now rewrite lookup_insert_eq.
Qed.


Lemma save_json_on_file path data w :
  files w !! path <> Some NoAccess ->
  save_json path data w = (Ok tt, with_file w path (JsonText data)).
Proof.
  unfold save_json, json_dump, write_file.
  destruct (files w !! path) as [[c|]|]; [reflexivity | contradiction | reflexivity].
Qed.




Lemma load_dos_donts_cases path w :
  _load_dos_donts path w
  = (Ok match files w !! path with
        | Some (File (JsonText v)) => json_image v
        | _ => PList []
        end, w).
Proof.
  unfold _load_dos_donts. run_dash.
  destruct (files w !! path) as [[[v|text]|]|] eqn:H.
  - rewrite bool_decide_eq_true_2 by eauto. cbn [negb]. now rewrite H.
  - rewrite bool_decide_eq_true_2 by eauto. cbn [negb]. now rewrite H.
  - rewrite bool_decide_eq_true_2 by eauto. cbn [negb]. now rewrite H.
  - rewrite bool_decide_eq_false_2 by (intros [x Hx]; discriminate Hx). reflexivity.
Qed.

Section DashboardFacts.

Variable to_csv : DataFrame -> content.
Variable read_csv : content -> result DataFrame.
Variable frame_of : pyval -> result DataFrame.
Variable append_reshaped : DataFrame -> list (str * pyval) -> DataFrame.
Variable date : Type.
Variable isoformat : date -> str.





(** The table or the notice is shown, the files are not touched. *)
Lemma show_records_ok data notice w :
  (truthy data = true -> exists df, frame_of data = Ok df) ->
  exists shown,
    show_records frame_of data notice w
    = (Ok tt, {| files := files w; screen := screen w ++ [shown] |}).
Proof.
  intros H. unfold show_records.
  destruct (truthy data).
  - destruct H as [df Hdf]; [reflexivity|]. run_dash. rewrite Hdf. eauto.
  - run_dash. eauto.
Qed.

Lemma write_after_load path default w v w1 :
  load_json path default w = (Ok v, w1) -> files w1 !! path <> Some NoAccess.
Proof.
  intros H. apply load_json_ok in H as (_ & c & Hc & _). rewrite Hc. discriminate.
Qed.

Lemma campaigns_tab_submit w w1 old f camp_id now :
  load_json CAMPAIGNS_FILE (PList []) w = (Ok (PList old), w1) ->
  (old <> [] -> exists df, frame_of (PList old) = Ok df) ->
  exists w',
    campaigns_tab frame_of isoformat (Some f) camp_id now w
    = (Ok (PList (old ++ [new_campaign isoformat f camp_id now])), w')
    /\ files w'
       = <[CAMPAIGNS_FILE :=
             File (JsonText (PList (old ++ [new_campaign isoformat f camp_id now])))]>
           (files w1).
Proof.
  intros Hl Hf. pose proof (write_after_load _ _ _ _ _ Hl) as Hw.
  destruct (show_records_ok (PList old) (py "No campaigns yet.") w1) as [shown Hs].
  { intros Ht. apply Hf. destruct old; [discriminate Ht | discriminate]. }
  unfold campaigns_tab. unfold mbind at 1, dash_bind at 1. rewrite Hl.
  unfold mbind at 1, dash_bind at 1. rewrite Hs.
  unfold pure, py_append. unfold mbind at 1, dash_bind at 1.
  unfold mbind at 1, dash_bind at 1.
  rewrite save_json_on_file by exact Hw.
  eexists. split; reflexivity.
Qed.


Lemma loaded_tuple_free path default w v w1 :
  load_json path default w = (Ok v, w1) ->
  tuple_free default = true -> tuple_free v = true.
Proof.
  intros H Hd. apply load_json_ok in H as (_ & c & _ & ->).
  destruct c as [x|text]; cbn [json_load]; [apply json_image_is_tuple_free | exact Hd].
Qed.

Lemma json_image_snoc old x :
  tuple_free (PList old) = true -> tuple_free x = true ->
  json_image (PList (old ++ [x])) = PList (old ++ [x]).
Proof.
  intros Ho Hx. apply json_image_tuple_free.
  cbn [tuple_free] in *. rewrite forallb_app, Ho. cbn [forallb]. now rewrite Hx.
Qed.


(** C10. When one of the stripped fields is non-empty the stripped entry is
    appended and the file rewritten; when both are blank the warning is
    shown and neither the list nor the files change. *)
Theorem dos_donts_form w w1 old do_text dont_text :
  load_json DOSDONTS_FILE (PList []) w = (Ok (PList old), w1) ->
  (old <> [] -> exists df, frame_of (PList old) = Ok df) ->
  exists w' shown,
    (truthy_str (strip do_text) || truthy_str (strip dont_text) = true ->
     dos_donts_tab frame_of (Some (do_text, dont_text)) w
     = (Ok (PList (old ++ [dos_donts_entry do_text dont_text])), w')
     /\ files w'
        = <[DOSDONTS_FILE :=
              File (JsonText (PList (old ++ [dos_donts_entry do_text dont_text])))]>
            (files w1)
     /\ files w' <> files w1
     /\ screen w'
        = screen w ++ [shown; Success (py "Instruction added successfully!")])
    /\ (truthy_str (strip do_text) || truthy_str (strip dont_text) = false ->
        dos_donts_tab frame_of (Some (do_text, dont_text)) w = (Ok (PList old), w')
        /\ files w' = files w1
        /\ screen w' = screen w ++ [shown; Warning (py "Please fill at least one field.")]).
Proof.
  intros Hl Hf. pose proof (write_after_load _ _ _ _ _ Hl) as Hw.
  destruct (load_json_ok _ _ _ _ _ Hl) as (Hscr & c & Hc & Hv).
  destruct (show_records_ok (PList old) (py "No instructions added yet.") w1) as [shown Hs].
  { intros Ht. apply Hf. destruct old; [discriminate Ht | discriminate]. }
  assert (Htab : dos_donts_tab frame_of (Some (do_text, dont_text)) w
                 = if truthy_str (strip do_text) || truthy_str (strip dont_text)
                   then (Ok (PList (old ++ [dos_donts_entry do_text dont_text])),
                         {| files := <[DOSDONTS_FILE :=
                                         File (JsonText (PList (old ++ [dos_donts_entry do_text dont_text])))]>
                                       (files w1);
                            screen := (screen w1 ++ [shown])
                                      ++ [Success (py "Instruction added successfully!")] |})
                   else (Ok (PList old),
                         {| files := files w1;
                            screen := (screen w1 ++ [shown])
                                      ++ [Warning (py "Please fill at least one field.")] |})).
  { unfold dos_donts_tab. unfold mbind at 1, dash_bind at 1. rewrite Hl.
    unfold mbind at 1, dash_bind at 1. rewrite Hs.
    fold (dos_donts_entry do_text dont_text).
    destruct (truthy_str (strip do_text) || truthy_str (strip dont_text)).
    - unfold pure, py_append. unfold mbind at 1, dash_bind at 1.
      unfold mbind at 1, dash_bind at 1.
      rewrite save_json_on_file by exact Hw. reflexivity.
    - reflexivity. }
  rewrite Htab.
  destruct (truthy_str (strip do_text) || truthy_str (strip dont_text)).
  - eexists _, shown. split; [|discriminate]. intros _.
    split; [reflexivity|]. cbn [files screen]. split; [reflexivity|]. split.
    + intros Heq.
      apply (f_equal (fun m => m !! DOSDONTS_FILE)) in Heq.
      rewrite lookup_insert_eq, Hc in Heq. injection Heq as <-.
      cbn [json_load json_image] in Hv. injection Hv as Hv.
      apply (f_equal (@length _)) in Hv. rewrite length_map, length_app in Hv.
      cbn [length] in Hv. lia.
    + rewrite Hscr. now rewrite <- app_assoc.
  - eexists _, shown. split; [discriminate|]. intros _.
    split; [reflexivity|]. cbn [files screen]. split; [reflexivity|].
    rewrite Hscr. now rewrite <- app_assoc.
Qed.

End DashboardFacts.



(** One instruction, its [dont] left blank. *)
Lemma dos_donts_form_witness :
  exists w' shown,
    dos_donts_tab sample_frame (Some (py "  Greet by name ", py "   ")) empty_world
    = (Ok (PList ([] ++ [dos_donts_entry (py "  Greet by name ") (py "   ")])), w')
    /\ files w' !! DOSDONTS_FILE
       = Some (File (JsonText (PList [PDict [(py "do", PStr (py "Greet by name"));
                                             (py "dont", PStr [])]])))
    /\ screen w' = [shown; Success (py "Instruction added successfully!")].
Proof.
  destruct (dos_donts_form sample_frame empty_world
              (with_file empty_world DOSDONTS_FILE (JsonText (PList [])))
              [] (py "  Greet by name ") (py "   "))
    as (w' & shown & Hfull & _); [reflexivity | contradiction |].
  destruct Hfull as (Ht & Hw & _ & Hs); [reflexivity|].
  exists w', shown. split; [exact Ht|]. split; [|exact Hs].
  rewrite Hw. rewrite lookup_insert_eq. reflexivity.
Defined.

(* ===================================================================== *)
(** * Further properties of the code *)
(* ===================================================================== *)
Lemma lstrip_fixed (s : str) :
  (forall c r, s = c :: r -> is_space c = false) -> lstrip s = s.
Proof.
  destruct s as [|c r]; [reflexivity|]. intros H. simpl.
  now rewrite (H c r eq_refl).
Qed.

Lemma lstrip_idempotent (s : str) : lstrip (lstrip s) = lstrip s.
Proof.
  apply lstrip_fixed. intros c r H. eapply lstrip_no_leading_space. exact H.
Qed.

Lemma strip_idempotent (s : str) : strip (strip s) = strip s.
Proof.
  destruct (strip_spec s) as (_ & _ & _ & _ & _ & Hhead & _).
  unfold strip at 1. rewrite (lstrip_fixed (strip s)) by exact Hhead.
  unfold rstrip, strip, rstrip. now rewrite rev_involutive, lstrip_idempotent.
Qed.

Lemma strip_occurs (s : str) : occurs_in (strip s) s.
Proof.
  destruct (strip_spec s) as (pre & post & H & _). now exists pre, post.
Qed.

Lemma strip_nil : strip [] = [].
Proof. reflexivity. Qed.

(** A blank string strips to nothing, and only a blank one does. *)
Lemma strip_blank (s : str) : strip s = [] <-> forallb is_space s = true.
Proof.
  destruct (strip_spec s) as (pre & post & H & Hpre & Hpost & Hhead & _). split.
  - intros E. rewrite E in H. rewrite H. cbn [app]. rewrite forallb_app.
    now rewrite Hpre, Hpost.
  - intros Hs. destruct (strip s) as [|c r] eqn:E; [reflexivity|].
    pose proof (Hhead c r eq_refl) as Hc.
    rewrite H in Hs. rewrite forallb_app in Hs.
    apply andb_true_iff in Hs as [_ Hs]. cbn [app forallb] in Hs.
    rewrite Hc in Hs. discriminate Hs.
Qed.

Lemma split_on_length (sep : char) (s : str) :
  length (split_on sep s) = S (count_occ N.eq_dec s sep).
Proof.
  induction s as [|c s IH]; [reflexivity|]. cbn [split_on count_occ].
  destruct (c =? sep) eqn:E.
  - apply N.eqb_eq in E. subst c. destruct (N.eq_dec sep sep); [|contradiction].
    cbn [length]. now rewrite IH.
  - apply N.eqb_neq in E. destruct (N.eq_dec c sep); [contradiction|].
    destruct (split_on sep s); [discriminate IH | exact IH].
Qed.

Lemma split_on_no_sep (sep : char) (s : str) :
  Forall (fun field => ~ In sep field) (split_on sep s).
Proof.
  induction s as [|c s IH]; cbn [split_on].
  - constructor; [intros [] | constructor].
  - destruct (c =? sep) eqn:E.
    + constructor; [intros [] | exact IH].
    + apply N.eqb_neq in E. destruct (split_on sep s) as [|f fs].
      * constructor; [|constructor]. intros [H | []]. congruence.
      * inversion IH as [|? ? Hf Hfs]; subst. constructor; [|exact Hfs].
        intros [H | H]; [congruence | contradiction].
Qed.

Lemma join_cons (sep p q : str) (rest : list str) :
  join sep (p :: q :: rest) = p ++ sep ++ join sep (q :: rest).
Proof. reflexivity. Qed.

Lemma join_split_on (sep : char) (s : str) : join [sep] (split_on sep s) = s.
Proof.
  induction s as [|c s IH]; [reflexivity|]. cbn [split_on].
  pose proof (split_on_length sep s) as Hl.
  destruct (split_on sep s) as [|f fs] eqn:Es; [discriminate Hl|].
  destruct (c =? sep) eqn:E.
  - apply N.eqb_eq in E. subst c. rewrite join_cons, IH. reflexivity.
  - destruct fs as [|f' fs'].
    + rewrite <- IH. reflexivity.
    + rewrite <- IH. reflexivity.
Qed.

(** Every run of [answer], with the events it adds. *)
Lemma answer_trace self query t :
  exists evs,
    snd (answer self query t) = t ++ evs
    /\ (length (List.filter is_retrieve evs) <= 1)%nat
    /\ (length (List.filter is_invoke evs) <= 1)%nat
    /\ (forall prompt, In (Invoke prompt) evs ->
          exists docs, retriever self query = Ok docs
                       /\ _build_prompt self (hotel_data_of docs) query = Ok prompt).
Proof.
  unfold answer. run_io.
  destruct (retriever self query) as [docs|e].
  2:{ exists [Retrieve query]. cbn. repeat split; try lia.
      intros p [H|[]]. discriminate H. }
  rewrite hotel_data_of_docs.
  destruct (_build_prompt self (hotel_data_of docs) query) as [prompt|e] eqn:Hp.
  2:{ exists [Retrieve query]. cbn. repeat split; try lia.
      intros p [H|[]]. discriminate H. }
  assert (Hin : forall p evs', (forall ev, In ev evs' -> is_invoke ev = false) ->
                  In (Invoke p) (Retrieve query :: Invoke prompt :: evs') ->
                  exists docs0, Ok docs = Ok docs0
                    /\ _build_prompt self (hotel_data_of docs0) query = Ok p).
  { intros p evs' Hno [H|[H|H]]; [discriminate H | | ].
    - injection H as <-. eauto.
    - apply Hno in H. discriminate H. }
  destruct (llm self prompt) as [response|e].
  2:{ exists [Retrieve query; Invoke prompt]. rewrite <- app_assoc. cbn.
      repeat split; try lia.
      intros p H. apply (Hin p []); [intros ev []|exact H]. }
  destruct (answer_text response) as [final_answer|e].
  2:{ exists [Retrieve query; Invoke prompt]. rewrite <- app_assoc. cbn.
      repeat split; try lia.
      intros p H. apply (Hin p []); [intros ev []|exact H]. }
  exists [Retrieve query; Invoke prompt;
          LogInfo (py "Processed query at ILLORA RETREATS: " ++ fmt query)].
  rewrite <- !app_assoc. cbn. repeat split; try lia.
  intros p H.
  apply (Hin p [LogInfo (py "Processed query at ILLORA RETREATS: " ++ fmt query)]);
    [|exact H].
  intros ev [<-|[]]. reflexivity.
Qed.

(** X1. [ask] calls the retriever at most once and the model at most once;
    the model only on a prompt built after a successful retrieval, and
    neither of them for a refused query. *)
Theorem ask_service_calls lower self query user_type t :
  exists evs,
    snd (ask lower self query user_type t) = t ++ evs
    /\ (length (List.filter is_retrieve evs) <= 1)%nat
    /\ (length (List.filter is_invoke evs) <= 1)%nat
    /\ (forall prompt, In (Invoke prompt) evs ->
          blocked lower query user_type = false
          /\ exists docs, retriever self query = Ok docs
                          /\ _build_prompt self (hotel_data_of docs) query = Ok prompt)
    /\ (blocked lower query user_type = true -> evs = []).
Proof.
  destruct (blocked lower query user_type) eqn:Hb.
  - exists []. rewrite ask_blocked by exact Hb. cbn. rewrite app_nil_r.
    repeat split; try lia.
  - rewrite ask_unblocked by exact Hb.
    destruct (answer_trace self query t) as (evs & Ht & Hr & Hi & Hp).
    unfold try_except.
    destruct (answer self query t) as [[s|e] t'] eqn:Ha; cbn [snd] in Ht; subst t'.
    + exists evs. cbn [snd]. repeat split; auto. discriminate.
    + exists (evs ++ [Print (error_message query e); LogError (error_message query e)]).
      unfold ask_except. run_io. rewrite <- !app_assoc. cbn [app].
      split; [reflexivity|].
      rewrite !List.filter_app, !length_app. cbn.
      repeat split; try lia; try discriminate.
      apply in_app_or in H as [H1 | [H1|[H1|[]]]]; try discriminate H1.
      now apply Hp.
Qed.

Lemma rules_step_ok (rules_text rules_text' : str) (entry : pyval) :
  rules_step rules_text entry = Ok rules_text' -> well_formed_entry entry.
Proof.
  unfold rules_step, well_formed_entry, text_field, py_get, mbind, result_bind.
  destruct entry as [| | | | | | |items]; try discriminate.
  destruct (dict_lookup (py "do") items) as [[]|]; cbn [py_strip]; try discriminate;
    destruct (dict_lookup (py "dont") items) as [[]|]; cbn [py_strip];
    try discriminate; intros _; split; eauto.
Qed.

Lemma rules_loop_ok (entries : list pyval) : forall rules_text,
  (exists rules_text', rules_loop rules_text entries = Ok rules_text')
  <-> Forall well_formed_entry entries.
Proof.
  induction entries as [|entry rest IH]; intros rules_text.
  - split; [constructor | intros _; now exists rules_text].
  - split.
    + intros [r' H]. cbn [rules_loop] in H. unfold mbind, result_bind in H.
      destruct (rules_step rules_text entry) as [r1|e] eqn:E; [|discriminate H].
      constructor; [eapply rules_step_ok; exact E|].
      apply (IH r1). eauto.
    + intros H. rewrite rules_loop_well_formed by exact H. eauto.
Qed.

(** Rules that are not usable make prompt building raise. *)
Lemma build_prompt_needs_usable_rules self hotel_data query prompt :
  _build_prompt self hotel_data query = Ok prompt -> usable_rules (dos_donts self).
Proof.
  unfold _build_prompt, usable_rules.
  destruct (truthy (dos_donts self)) eqn:Ht; [|now left].
  unfold mbind at 1, result_bind at 1. intros H. right.
  assert (Hloop : forall entries,
             match rules_loop RULES_HEADER entries with
             | Ok a => Ok (preamble hotel_data query ++ a)
             | Raise e => Raise e
             end = Ok prompt -> Forall well_formed_entry entries).
  { intros entries He. apply (rules_loop_ok entries RULES_HEADER).
    destruct (rules_loop RULES_HEADER entries); [eauto | discriminate He]. }
  destruct (dos_donts self) as [|b|n|x|s|xs|xs|items];
    cbn [py_iter mbind result_bind] in H; try discriminate H.
  - destruct s as [|c s]; [discriminate Ht|]. cbn [map] in H.
    apply Hloop in H. inversion H as [|? ? [[x Hx] _] _]. discriminate Hx.
  - exists xs. split; [now left | now apply Hloop].
  - exists xs. split; [now right | now apply Hloop].
  - destruct items as [|[k v] items]; [discriminate Ht|]. cbn [map fst] in H.
    apply Hloop in H. inversion H as [|? ? [[x Hx] _] _]. discriminate Hx.
Qed.

(** On usable rules prompt building returns. *)
Lemma usable_rules_build_prompt self hotel_data query :
  usable_rules (dos_donts self) ->
  exists prompt, _build_prompt self hotel_data query = Ok prompt.
Proof.
  unfold _build_prompt. intros [Hfalsy | (entries & Hd & Hwf)].
  - rewrite Hfalsy. cbn [mbind result_bind]. eauto.
  - destruct (truthy (dos_donts self)); [|cbn [mbind result_bind]; eauto].
    destruct Hd as [-> | ->]; cbn [py_iter mbind result_bind];
      rewrite rules_loop_well_formed by exact Hwf; eauto.
Qed.

(** X2. Prompt building succeeds exactly on usable rules. *)
Theorem build_prompt_succeeds_iff self hotel_data query :
  (exists prompt, _build_prompt self hotel_data query = Ok prompt)
  <-> usable_rules (dos_donts self).
Proof.
  split.
  - intros [prompt H]. eapply build_prompt_needs_usable_rules. exact H.
  - apply usable_rules_build_prompt.
Qed.



(** X4. An absent or empty query is never refused; it is handed to the
    retriever as it came. *)
Theorem absent_query_never_refused lower self query user_type t :
  lower [] = [] ->
  or_empty query = [] ->
  blocked lower query user_type = false
  /\ exists evs, snd (ask lower self query user_type t) = t ++ Retrieve query :: evs.
Proof.
  intros Hlow Hq.
  assert (Hb : blocked lower query user_type = false).
  { unfold blocked. rewrite Hq, Hlow.
    replace (existsb (fun term => contains term []) restricted_services) with false
      by (vm_compute; reflexivity).
    apply andb_false_r. }
  split; [exact Hb|]. rewrite ask_unblocked by exact Hb.
  unfold try_except, answer. run_io.
  destruct (retriever self query) as [docs|e].
  2:{ unfold ask_except. run_io. eexists. rewrite <- !app_assoc. reflexivity. }
  rewrite hotel_data_of_docs.
  destruct (_build_prompt self (hotel_data_of docs) query) as [prompt|e].
  2:{ unfold ask_except. run_io. eexists. rewrite <- !app_assoc. reflexivity. }
  destruct (llm self prompt) as [response|e].
  2:{ unfold ask_except. run_io. eexists. rewrite <- !app_assoc. reflexivity. }
  destruct (answer_text response) as [final|e].
  2:{ unfold ask_except. run_io. eexists. rewrite <- !app_assoc. reflexivity. }
  eexists. rewrite <- !app_assoc. reflexivity.
Qed.

Lemma absent_query_never_refused_witness :
  blocked ascii_lower None (Some (py "non-guest")) = false
  /\ exists evs,
       snd (ask ascii_lower offline_bot None (Some (py "non-guest")) [])
       = [] ++ Retrieve None :: evs.
Proof.
  apply (absent_query_never_refused ascii_lower offline_bot None
           (Some (py "non-guest")) []); reflexivity.
Defined.





Lemma dos_donts_tab_run frame_of w w1 old do_text dont_text shown :
  load_json DOSDONTS_FILE (PList []) w = (Ok (PList old), w1) ->
  show_records frame_of (PList old) (py "No instructions added yet.") w1
  = (Ok tt, {| files := files w1; screen := screen w1 ++ [shown] |}) ->
  dos_donts_tab frame_of (Some (do_text, dont_text)) w
  = if truthy_str (strip do_text) || truthy_str (strip dont_text)
    then (Ok (PList (old ++ [dos_donts_entry do_text dont_text])),
          {| files := <[DOSDONTS_FILE :=
                          File (JsonText (PList (old ++ [dos_donts_entry do_text dont_text])))]>
                        (files w1);
             screen := (screen w1 ++ [shown])
                       ++ [Success (py "Instruction added successfully!")] |})
    else (Ok (PList old),
          {| files := files w1;
             screen := (screen w1 ++ [shown])
                       ++ [Warning (py "Please fill at least one field.")] |}).
Proof.
  intros Hl Hs. pose proof (write_after_load _ _ _ _ _ Hl) as Hw.
  unfold dos_donts_tab. unfold mbind at 1, dash_bind at 1. rewrite Hl.
  unfold mbind at 1, dash_bind at 1. rewrite Hs.
  fold (dos_donts_entry do_text dont_text).
  destruct (truthy_str (strip do_text) || truthy_str (strip dont_text)).
  - unfold pure, py_append. unfold mbind at 1, dash_bind at 1.
    unfold mbind at 1, dash_bind at 1.
    rewrite save_json_on_file by exact Hw. reflexivity.
  - reflexivity.
Qed.



(** X6. The bot starts whenever the vector store and the model client can
    be built, whatever the state of the rules file; it starts with the
    retriever set to MMR with k and fetch_k (5 and 20 unless configured),
    with the rules of the file or none, and it never writes a file.  When
    it cannot start, the error is logged and the same exception raised. *)
Theorem init_outcome create_vector_store ChatOpenAI cfg w t :
  snd (fst (__init__ create_vector_store ChatOpenAI cfg w t)) = w
  /\ (forall vector_store llm,
        create_vector_store = Ok vector_store ->
        ChatOpenAI (OPENAI_API_KEY cfg) (OPENAI_MODEL cfg) (GROQ_API_BASE cfg) 0%Z = Ok llm ->
        exists rules evs,
          __init__ create_vector_store ChatOpenAI cfg w t
          = (Ok {| retriever := as_retriever vector_store (py "mmr")
                                  (default 5%Z (RETRIEVER_K cfg))
                                  (default 20%Z (RETRIEVER_FETCH_K cfg));
                   llm := llm;
                   dos_donts := rules |},
             w,
             t ++ evs ++ [LogInfo (py "ILLORA RETREATS QA agent initialized successfully.")])
          /\ rules = match files w !! DOS_DONTS_PATH with
                     | Some (File (JsonText v)) => json_image v
                     | _ => PList []
                     end)
  /\ (forall e,
        create_vector_store = Raise e
        \/ (exists vector_store,
              create_vector_store = Ok vector_store
              /\ ChatOpenAI (OPENAI_API_KEY cfg) (OPENAI_MODEL cfg) (GROQ_API_BASE cfg) 0%Z
                 = Raise e) ->
        __init__ create_vector_store ChatOpenAI cfg w t
        = (Raise e, w, t ++ [LogError (py "Error initializing QA agent: " ++ exn_text e)])).
Proof.
  unfold __init__, init_try. rewrite load_dos_donts_cases.
  split; [|split].
  - destruct create_vector_store as [vs|e]; [|reflexivity].
    destruct (ChatOpenAI _ _ _ _) as [llm|e]; reflexivity.
  - intros vs llm -> ->. eexists _, (load_warnings DOS_DONTS_PATH w).
    split; reflexivity.
  - intros e [-> | (vs & -> & ->)]; reflexivity.
Qed.



(** X8. Loading again gives the same value and changes nothing more. *)
Theorem load_json_stable path default w v w1 :
  load_json path default w = (Ok v, w1) ->
  load_json path default w1 = (Ok v, w1).
Proof.
  destruct (files w !! path) as [[c|]|] eqn:E.
  - rewrite (load_json_present _ _ _ _ E). intros [= <- <-].
    now rewrite (load_json_present _ _ _ _ E).
  - rewrite (load_json_no_access _ _ _ E). discriminate.
  - rewrite (load_json_absent _ _ _ E). intros [= <- <-].
    rewrite (load_json_present path default _ (JsonText default)).
    + reflexivity.
    + cbn [with_file files]. apply lookup_insert_eq.
Qed.

Lemma load_json_stable_witness :
  load_json DOSDONTS_FILE (PList [])
    (with_file empty_world DOSDONTS_FILE (JsonText (PList [])))
  = (Ok (PList []), with_file empty_world DOSDONTS_FILE (JsonText (PList []))).
Proof.
  apply (load_json_stable DOSDONTS_FILE (PList []) empty_world). reflexivity.
Defined.

Lemma touches_only_bind {A B : Type} path (m : dash A) (f : A -> dash B) :
  touches_only path m -> (forall a, touches_only path (f a)) ->
  touches_only path (m ≫= f).
Proof.
  intros Hm Hf w other Hne. unfold mbind, dash_bind.
  specialize (Hm w other Hne).
  destruct (m w) as [[a|e] w'] eqn:E; cbn [snd] in Hm.
  - rewrite <- Hm. now apply Hf.
  - exact Hm.
Qed.

Lemma touches_only_ret {A : Type} path (a : A) : touches_only path (mret a : dash A).
Proof. intros w other _. reflexivity. Qed.

Lemma touches_only_pure {A : Type} path (r : result A) : touches_only path (pure r).
Proof. intros w other _. reflexivity. Qed.

Lemma touches_only_show path x : touches_only path (show x).
Proof. intros w other _. reflexivity. Qed.

Lemma touches_only_exists path p : touches_only path (exists_path p).
Proof. intros w other _. reflexivity. Qed.

Lemma touches_only_open path p : touches_only path (open_read p).
Proof.
  intros w other _. unfold open_read. now destruct (files w !! p) as [[c|]|].
Qed.

Lemma touches_only_write path c : touches_only path (write_file path c).
Proof.
  intros w other Hne. unfold write_file.
  destruct (files w !! path) as [[c'|]|]; cbn [snd files];
    try reflexivity; now apply lookup_insert_ne.
Qed.

Lemma touches_only_try {A : Type} path (m : dash A) (h : exn -> dash A) :
  touches_only path m -> (forall e, touches_only path (h e)) ->
  touches_only path (dash_try m h).
Proof.
  intros Hm Hh w other Hne. unfold dash_try.
  specialize (Hm w other Hne).
  destruct (m w) as [[a|e] w'] eqn:E; cbn [snd] in Hm.
  - exact Hm.
  - rewrite <- Hm. now apply Hh.
Qed.

Lemma touches_only_load_json path default : touches_only path (load_json path default).
Proof.
  unfold load_json.
  apply touches_only_bind; [apply touches_only_exists|]. intros present.
  apply touches_only_bind.
  { destruct (negb present); [apply touches_only_write | apply touches_only_ret]. }
  intros _. apply touches_only_bind; [apply touches_only_open|]. intros c.
  apply touches_only_try; [apply touches_only_pure | intros; apply touches_only_ret].
Qed.

Lemma touches_only_save_json path data : touches_only path (save_json path data).
Proof. apply touches_only_write. Qed.

Lemma touches_only_show_records path frame_of data notice :
  touches_only path (show_records frame_of data notice).
Proof.
  unfold show_records. destruct (truthy data); [|apply touches_only_show].
  apply touches_only_bind; [apply touches_only_pure | intros; apply touches_only_show].
Qed.

Section TabFacts.

Variable to_csv : DataFrame -> content.
Variable read_csv : content -> result DataFrame.
Variable frame_of : pyval -> result DataFrame.
Variable append_reshaped : DataFrame -> list (str * pyval) -> DataFrame.
Variable date : Type.
Variable isoformat : date -> str.
Variable title : str -> str.

Lemma touches_only_menu_loop categories :
  touches_only MENU_FILE (menu_loop frame_of title categories).
Proof.
  induction categories as [|[cat items] rest IH]; cbn [menu_loop].
  - apply touches_only_ret.
  - apply touches_only_bind.
    { unfold menu_category. destruct items;
        try apply touches_only_show;
        (apply touches_only_bind; [apply touches_only_pure | intros; apply touches_only_show]). }
    intros _. apply touches_only_bind; [exact IH | intros; apply touches_only_ret].
Qed.

(** X9. Each tab leaves every file but its own untouched, whether it ends
    well or raises. *)
Theorem tabs_touch_only_their_file :
  (forall submitted camp_id now,
      touches_only CAMPAIGNS_FILE (campaigns_tab frame_of isoformat submitted camp_id now))
  /\ (forall submitted, touches_only DOSDONTS_FILE (dos_donts_tab frame_of submitted))
  /\ (forall submitted,
        touches_only QA_CSV (qa_tab to_csv read_csv append_reshaped submitted))
  /\ touches_only MENU_FILE (menu_tab frame_of title).
Proof.
  split; [|split; [|split]].
  - intros submitted camp_id now. unfold campaigns_tab.
    apply touches_only_bind; [apply touches_only_load_json|]. intros campaigns.
    apply touches_only_bind; [apply touches_only_show_records|]. intros _.
    destruct submitted as [f|]; [|apply touches_only_ret].
    apply touches_only_bind; [apply touches_only_pure|]. intros campaigns'.
    apply touches_only_bind; [apply touches_only_save_json|]. intros _.
    apply touches_only_bind; [apply touches_only_show | intros; apply touches_only_ret].
  - intros submitted. unfold dos_donts_tab.
    apply touches_only_bind; [apply touches_only_load_json|]. intros dos_donts.
    apply touches_only_bind; [apply touches_only_show_records|]. intros _.
    destruct submitted as [[do_text dont_text]|]; [|apply touches_only_ret].
    destruct (truthy_str (strip do_text) || truthy_str (strip dont_text)).
    + apply touches_only_bind; [apply touches_only_pure|]. intros dos_donts'.
      apply touches_only_bind; [apply touches_only_save_json|]. intros _.
      apply touches_only_bind; [apply touches_only_show | intros; apply touches_only_ret].
    + apply touches_only_bind; [apply touches_only_show | intros; apply touches_only_ret].
  - intros submitted. unfold qa_tab, ensure_csv.
    apply touches_only_bind.
    { apply touches_only_bind; [apply touches_only_exists|]. intros present.
      apply touches_only_bind.
      { destruct (negb present); [apply touches_only_write | apply touches_only_ret]. }
      intros _. apply touches_only_bind; [apply touches_only_open|].
      intros c. apply touches_only_pure. }
    intros qa_df. apply touches_only_bind; [apply touches_only_show|]. intros _.
    destruct submitted as [[q a]|]; [|apply touches_only_ret].
    apply touches_only_bind; [apply touches_only_write | intros; apply touches_only_show].
  - unfold menu_tab.
    apply touches_only_bind; [apply touches_only_load_json|]. intros menu.
    apply touches_only_bind; [apply touches_only_pure|]. intros categories.
    apply touches_only_menu_loop.
Qed.

Lemma load_json_keeps_existing path default w :
  is_Some (files w !! path) -> snd (load_json path default w) = w.
Proof.
  intros [[c|] H].
  - now rewrite (load_json_present _ _ _ _ H).
  - now rewrite (load_json_no_access _ _ _ H).
Qed.

Lemma show_records_files data notice w :
  files (snd (show_records frame_of data notice w)) = files w.
Proof.
  unfold show_records. destruct (truthy data); [|reflexivity].
  run_dash. now destruct (frame_of data).
Qed.

Lemma menu_loop_files categories w :
  files (snd (menu_loop frame_of title categories w)) = files w.
Proof.
  revert w. induction categories as [|[cat items] rest IH]; intros w; [reflexivity|].
  cbn [menu_loop]. unfold mbind at 1, dash_bind at 1.
  assert (Hc : files (snd (menu_category frame_of items w)) = files w).
  { unfold menu_category. destruct items; try reflexivity; run_dash;
      match goal with |- context [frame_of ?x] => now destruct (frame_of x) end. }
  destruct (menu_category frame_of items w) as [[u|e] w1]; cbn [snd] in Hc |- *;
    [|exact Hc].
  unfold mbind at 1, dash_bind at 1. specialize (IH w1).
  destruct (menu_loop frame_of title rest w1) as [[ts|e] w2];
    unfold mret, dash_ret; cbn [snd] in IH |- *; congruence.
Qed.

(** X10. Showing a tab without submitting its form changes no file, once
    the file of the tab exists. *)
Theorem rendering_is_read_only w :
  (is_Some (files w !! CAMPAIGNS_FILE) ->
   forall camp_id now,
     files (snd (campaigns_tab frame_of isoformat None camp_id now w)) = files w)
  /\ (is_Some (files w !! DOSDONTS_FILE) ->
      files (snd (dos_donts_tab frame_of None w)) = files w)
  /\ (is_Some (files w !! QA_CSV) ->
      files (snd (qa_tab to_csv read_csv append_reshaped None w)) = files w)
  /\ (is_Some (files w !! MENU_FILE) ->
      files (snd (menu_tab frame_of title w)) = files w).
Proof.
  split; [|split; [|split]].
  - intros H camp_id now. unfold campaigns_tab. unfold mbind at 1, dash_bind at 1.
    pose proof (load_json_keeps_existing CAMPAIGNS_FILE (PList []) w H) as Hl.
    destruct (load_json CAMPAIGNS_FILE (PList []) w) as [[v|e] w1]; cbn [snd] in Hl;
      subst w1; [|reflexivity].
    unfold mbind at 1, dash_bind at 1.
    pose proof (show_records_files v (py "No campaigns yet.") w) as Hs.
    destruct (show_records frame_of v (py "No campaigns yet.") w) as [[u|e] w2];
      exact Hs.
  - intros H. unfold dos_donts_tab. unfold mbind at 1, dash_bind at 1.
    pose proof (load_json_keeps_existing DOSDONTS_FILE (PList []) w H) as Hl.
    destruct (load_json DOSDONTS_FILE (PList []) w) as [[v|e] w1]; cbn [snd] in Hl;
      subst w1; [|reflexivity].
    unfold mbind at 1, dash_bind at 1.
    pose proof (show_records_files v (py "No instructions added yet.") w) as Hs.
    destruct (show_records frame_of v (py "No instructions added yet.") w) as [[u|e] w2];
      exact Hs.
  - intros [[c|] H]; unfold qa_tab, ensure_csv; run_dash; rewrite H;
      rewrite bool_decide_eq_true_2 by eauto; cbn [negb]; rewrite H;
      [now destruct (read_csv c) | reflexivity].
  - intros H. unfold menu_tab. unfold mbind at 1, dash_bind at 1.
    pose proof (load_json_keeps_existing MENU_FILE default_menu w H) as Hl.
    destruct (load_json MENU_FILE default_menu w) as [[v|e] w1]; cbn [snd] in Hl;
      subst w1; [|reflexivity].
    unfold mbind at 1, dash_bind at 1. unfold pure.
    destruct (py_items v) as [cats|e]; [|reflexivity].
    apply menu_loop_files.
Qed.

End TabFacts.

Section SubmitFacts.

Variable frame_of : pyval -> result DataFrame.
Variable date : Type.
Variable isoformat : date -> str.
Variable title : str -> str.

(** X11. A campaigns file that is no JSON counts as empty, and the first
    submission replaces it: the file then holds the new record alone. *)
Theorem damaged_file_is_replaced w text (f : campaign_form date) camp_id now :
  files w !! CAMPAIGNS_FILE = Some (File (OtherText text)) ->
  exists w',
    campaigns_tab frame_of isoformat (Some f) camp_id now w
    = (Ok (PList [new_campaign isoformat f camp_id now]), w')
    /\ files w' !! CAMPAIGNS_FILE
       = Some (File (JsonText (PList [new_campaign isoformat f camp_id now]))).
Proof.
  intros H.
  destruct (campaigns_tab_submit frame_of date isoformat w w [] f camp_id now)
    as (w' & Ht & Hw).
  - now rewrite (load_json_present _ _ _ _ H).
  - contradiction.
  - exists w'. split; [exact Ht|]. rewrite Hw. apply lookup_insert_eq.
Qed.


(** X13. Submissions accumulate: after two of them the file holds the
    earlier records, then the first new one, then the second. *)
Theorem submissions_accumulate w w1 old (f1 f2 : campaign_form date)
    id1 now1 id2 now2 :
  (forall data, exists df, frame_of data = Ok df) ->
  load_json CAMPAIGNS_FILE (PList []) w = (Ok (PList old), w1) ->
  exists w' w'',
    campaigns_tab frame_of isoformat (Some f1) id1 now1 w
    = (Ok (PList (old ++ [new_campaign isoformat f1 id1 now1])), w')
    /\ campaigns_tab frame_of isoformat (Some f2) id2 now2 w'
       = (Ok (PList (old ++ [new_campaign isoformat f1 id1 now1;
                             new_campaign isoformat f2 id2 now2])), w'')
    /\ files w'' !! CAMPAIGNS_FILE
       = Some (File (JsonText
                       (PList (old ++ [new_campaign isoformat f1 id1 now1;
                                       new_campaign isoformat f2 id2 now2])))).
Proof.
  intros Hf Hl.
  destruct (campaigns_tab_submit frame_of date isoformat w w1 old f1 id1 now1 Hl)
    as (w' & Ht & Hw); [intros _; apply Hf|].
  assert (Hl' : load_json CAMPAIGNS_FILE (PList []) w'
                = (Ok (PList (old ++ [new_campaign isoformat f1 id1 now1])), w')).
  { rewrite (load_json_present CAMPAIGNS_FILE (PList []) w'
               (JsonText (PList (old ++ [new_campaign isoformat f1 id1 now1]))))
      by (rewrite Hw; apply lookup_insert_eq).
    cbn [json_load]. rewrite json_image_snoc; [reflexivity| |reflexivity].
    eapply loaded_tuple_free; [exact Hl | reflexivity]. }
  destruct (campaigns_tab_submit frame_of date isoformat w' w' _ f2 id2 now2 Hl')
    as (w'' & Ht' & Hw'); [intros _; apply Hf|].
  exists w', w''. split; [exact Ht|]. rewrite <- app_assoc in Ht', Hw'.
  split; [exact Ht'|]. rewrite Hw'. apply lookup_insert_eq.
Qed.

(** X14. The Do's & Don'ts form turns an entry down exactly when both
    fields are empty or white space only; any other entry is stored. *)
Theorem form_rejects_only_blank w w1 old do_text dont_text :
  load_json DOSDONTS_FILE (PList []) w = (Ok (PList old), w1) ->
  (old <> [] -> exists df, frame_of (PList old) = Ok df) ->
  (fst (dos_donts_tab frame_of (Some (do_text, dont_text)) w) = Ok (PList old)
   <-> forallb is_space do_text = true /\ forallb is_space dont_text = true)
  /\ (fst (dos_donts_tab frame_of (Some (do_text, dont_text)) w)
      = Ok (PList (old ++ [dos_donts_entry do_text dont_text]))
      <-> ~ (forallb is_space do_text = true /\ forallb is_space dont_text = true)).
Proof.
  intros Hl Hf.
  destruct (show_records_ok frame_of (PList old) (py "No instructions added yet.") w1)
    as [shown Hs].
  { intros Ht. apply Hf. destruct old; [discriminate Ht | discriminate]. }
  rewrite (dos_donts_tab_run _ _ _ _ _ _ _ Hl Hs).
  rewrite <- !strip_blank.
  assert (Hlen : PList (old ++ [dos_donts_entry do_text dont_text]) <> PList old).
  { intros [= H]. apply (f_equal (@length _)) in H. rewrite length_app in H.
    cbn [length] in H. lia. }
  destruct (strip do_text) as [|c r], (strip dont_text) as [|c' r'];
    cbn [truthy_str orb fst]; split; split;
    try (intros [= H]); try (intros [H1 H2]); try discriminate;
    try congruence; try (split; reflexivity); try reflexivity;
    try (intros H; exfalso; apply H; split; reflexivity);
    try (intros _ [H1 H2]; discriminate).
Qed.

End SubmitFacts.

Section MenuFacts.

Variable frame_of : pyval -> result DataFrame.
Variable title : str -> str.



End MenuFacts.


Lemma rendering_is_read_only_witness :
  files (snd (campaigns_tab sample_frame id None (py "c-2") (py "2025-06-30T10:00:00")
                one_campaign))
  = files one_campaign.
Proof.
  destruct (rendering_is_read_only sample_to_csv sample_read_csv sample_frame
              (fun df _ => df) str id ascii_title one_campaign) as [H _].
  apply H. now exists (File (JsonText (PList [monsoon]))).
Defined.

Lemma damaged_file_is_replaced_witness :
  exists w',
    campaigns_tab sample_frame id (Some spa_week) (py "c-2") (py "2025-06-30T10:00:00")
      damaged_campaigns
    = (Ok (PList [new_campaign id spa_week (py "c-2") (py "2025-06-30T10:00:00")]), w')
    /\ files w' !! CAMPAIGNS_FILE
       = Some (File (JsonText
                       (PList [new_campaign id spa_week (py "c-2")
                                 (py "2025-06-30T10:00:00")]))).
Proof.
  apply (damaged_file_is_replaced sample_frame str id damaged_campaigns
           (py "[{ id: c-1 ")).
  reflexivity.
Defined.


Lemma submissions_accumulate_witness :
  exists w' w'',
    campaigns_tab sample_frame id (Some spa_week) (py "c-2") (py "2025-06-30T10:00:00")
      one_campaign
    = (Ok (PList ([monsoon]
                  ++ [new_campaign id spa_week (py "c-2") (py "2025-06-30T10:00:00")])), w')
    /\ campaigns_tab sample_frame id (Some pool_week) (py "c-3") (py "2025-07-15T09:30:00") w'
       = (Ok (PList ([monsoon]
                     ++ [new_campaign id spa_week (py "c-2") (py "2025-06-30T10:00:00");
                         new_campaign id pool_week (py "c-3") (py "2025-07-15T09:30:00")])),
          w'')
    /\ files w'' !! CAMPAIGNS_FILE
       = Some (File (JsonText
                       (PList ([monsoon]
                               ++ [new_campaign id spa_week (py "c-2")
                                     (py "2025-06-30T10:00:00");
                                   new_campaign id pool_week (py "c-3")
                                     (py "2025-07-15T09:30:00")])))).
Proof.
  apply (submissions_accumulate sample_frame str id one_campaign one_campaign).
  - intros data. now exists {| columns := []; rows := [] |}.
  - reflexivity.
Defined.

Lemma form_rejects_only_blank_witness :
  fst (dos_donts_tab sample_frame (Some ([32; 9], [10])) empty_world) = Ok (PList []).
Proof.
  destruct (form_rejects_only_blank sample_frame empty_world
              (with_file empty_world DOSDONTS_FILE (JsonText (PList [])))
              [] [32; 9] [10]) as [[_ H] _].
  - reflexivity.
  - contradiction.
  - apply H. split; reflexivity.
Defined.

Lemma universal_newlines_cons (c : char) (rest : str) :
  universal_newlines (c :: rest)
  = if c =? CR
    then NL :: match rest with
               | d :: rest' => if d =? NL then universal_newlines rest'
                               else universal_newlines rest
               | [] => universal_newlines rest
               end
    else c :: universal_newlines rest.
Proof.
  destruct (c =? CR) eqn:E.
  - apply N.eqb_eq in E. subst c. cbn [universal_newlines]. f_equal.
    destruct rest as [|d rest']; [reflexivity|].
    destruct (d =? NL) eqn:E'.
    + apply N.eqb_eq in E'. now subst d.
    + destruct d as [|p]; [reflexivity|].
      do 4 (try destruct p as [p|p|]); try reflexivity; discriminate E'.
  - destruct c as [|p]; [reflexivity|].
    do 4 (try destruct p as [p|p|]); try reflexivity; discriminate E.
Qed.

Lemma universal_newlines_no_cr_bounded (n : nat) : forall text,
  (length text <= n)%nat -> ~ In CR (universal_newlines text).
Proof.
  induction n as [|n IH]; intros [|c rest] Hlen; try (intros []); cbn [length] in Hlen;
    [lia|].
  rewrite universal_newlines_cons. destruct (c =? CR) eqn:E.
  - intros [H | H]; [discriminate H|]. revert H.
    destruct rest as [|d rest']; [apply IH; cbn; lia|].
    destruct (d =? NL); apply IH; cbn [length] in *; lia.
  - apply N.eqb_neq in E. intros [H | H]; [congruence|].
    revert H. apply IH. lia.
Qed.

Lemma universal_newlines_id (text : str) :
  ~ In CR text -> universal_newlines text = text.
Proof.
  induction text as [|c rest IH]; [reflexivity|]. intros H.
  rewrite universal_newlines_cons.
  destruct (c =? CR) eqn:E.
  - apply N.eqb_eq in E. exfalso. apply H. now left.
  - f_equal. apply IH. intros Hin. apply H. now right.
Qed.

Lemma lines_of_concat (s : str) : concat (lines_of s) = s.
Proof.
  induction s as [|c s IH]; [reflexivity|]. cbn [lines_of].
  destruct (c =? NL).
  - cbn [concat app]. now rewrite IH.
  - destruct (lines_of s) as [|l ls]; cbn [concat app] in *; now rewrite <- IH.
Qed.

Lemma lines_of_shape (s : str) : Forall line_shape (lines_of s).
Proof.
  induction s as [|c s IH]; [constructor|]. cbn [lines_of].
  destruct (c =? NL) eqn:E.
  - apply N.eqb_eq in E. subst c. constructor; [|exact IH].
    split; [discriminate|]. exists []. split; [intros []|]. now left.
  - apply N.eqb_neq in E. destruct (lines_of s) as [|l ls].
    + constructor; [|constructor]. split; [discriminate|].
      exists [c]. split; [|now right]. intros [H|[]]. congruence.
    + inversion IH as [|? ? (Hne & body & Hb & Hl) Hls]; subst.
      constructor; [|exact Hls]. split; [discriminate|].
      exists (c :: body). split.
      * intros [H|H]; [congruence | contradiction].
      * destruct Hl as [-> | ->]; [now left | now right].
Qed.

(** Every line read from a file ends at its newline and holds no carriage
    return. *)
Lemma file_lines_each (text : str) :
  Forall (fun line => line_shape line /\ ~ In CR line) (file_lines text).
Proof.
  unfold file_lines. apply List.Forall_forall. intros line Hin. split.
  - pose proof (lines_of_shape (universal_newlines text)) as Hs.
    rewrite List.Forall_forall in Hs. now apply Hs.
  - intros Hcr.
    apply (universal_newlines_no_cr_bounded (length text) text (le_n _)).
    rewrite <- (lines_of_concat (universal_newlines text)).
    apply in_concat. eauto.
Qed.

(** X16. The lines read from a file are its text cut after every newline:
    put together they give the text back (line ends unified), no line is
    empty, none holds a carriage return, and a newline is only ever the
    last character of a line. *)
Theorem file_lines_partition (text : str) :
  concat (file_lines text) = universal_newlines text
  /\ (~ In CR text -> concat (file_lines text) = text)
  /\ Forall (fun line => line_shape line /\ ~ In CR line) (file_lines text).
Proof.
  split; [|split].
  - unfold file_lines. apply lines_of_concat.
  - intros H. unfold file_lines. now rewrite lines_of_concat, universal_newlines_id.
  - apply file_lines_each.
Qed.

Lemma count_spaces_no_pipe (l : str) :
  forallb is_space l = true -> count_occ N.eq_dec l PIPE = 0%nat.
Proof.
  induction l as [|c l IH]; [reflexivity|]. cbn [forallb]. intros H.
  apply andb_true_iff in H as [Hc Hl]. cbn [count_occ].
  destruct (N.eq_dec c PIPE) as [->|_]; [discriminate Hc | now apply IH].
Qed.

Lemma count_pipe_strip (line : str) :
  count_occ N.eq_dec (strip line) PIPE = count_occ N.eq_dec line PIPE.
Proof.
  destruct (strip_spec line) as (pre & post & H & Hpre & Hpost & _).
  revert H. generalize (strip line). intros stripped ->.
  rewrite !count_occ_app.
  pose proof (count_spaces_no_pipe pre Hpre) as H1.
  pose proof (count_spaces_no_pipe post Hpost) as H2. unfold char in *. lia.
Qed.

(** X17. A line is kept exactly when it holds at least seven "|". *)
Theorem kept_iff_seven_pipes (line : str) :
  kept line = true <-> (7 <= count_occ N.eq_dec line PIPE)%nat.
Proof.
  unfold kept, parts_of. rewrite length_map, split_on_length, count_pipe_strip.
  rewrite Nat.leb_le. lia.
Qed.

Lemma strip_no_pipe (field : str) : ~ In PIPE field -> ~ In PIPE (strip field).
Proof.
  intros H Hin. apply H. destruct (strip_occurs field) as (pre & post & ->).
  apply in_or_app. right. apply in_or_app. now left.
Qed.

Lemma nth_map_strip (fields : list str) (i : nat) :
  nth i (map strip fields) [] = strip (nth i fields []).
Proof. exact (map_nth strip fields [] i). Qed.

Lemma part_of_parts (line : str) (i : nat) :
  ~ In PIPE (part (parts_of line) i)
  /\ strip (part (parts_of line) i) = part (parts_of line) i.
Proof.
  unfold part, parts_of. rewrite nth_map_strip.
  split; [|apply strip_idempotent].
  apply strip_no_pipe.
  pose proof (split_on_no_sep PIPE (strip line)) as Hf.
  rewrite List.Forall_forall in Hf.
  destruct (Nat.lt_ge_cases i (length (split_on PIPE (strip line)))) as [Hi | Hi].
  - apply Hf. now apply nth_In.
  - rewrite nth_overflow by exact Hi. intros [].
Qed.

(** X18. Every row of the analytics table has the seven columns of its
    header, there are no more rows than lines, and every field taken from
    the "|" positions is free of "|" and of surrounding white space. *)
Theorem parsed_rows_shape (lines : list str) :
  Forall (fun row => length row = 7%nat) (parse_log lines)
  /\ (length (parse_log lines) <= length lines)%nat
  /\ forall line i,
       ~ In PIPE (part (parts_of line) i)
       /\ strip (part (parts_of line) i) = part (parts_of line) i.
Proof.
  unfold parse_log. rewrite fold_log_step. cbn [app]. split; [|split].
  - apply List.Forall_forall. intros row Hin. apply in_map_iff in Hin as (line & <- & _).
    reflexivity.
  - rewrite length_map. apply List.filter_length_le.
  - apply part_of_parts.
Qed.

Lemma tail_after_newline (body X post' : str) :
  body ++ [NL] = X ++ NL :: post' -> ~ In NL body -> post' = [].
Proof.
  intros H Hn. destruct post' as [|z post'] using rev_ind; [reflexivity|]. exfalso.
  change (X ++ NL :: post' ++ [z]) with (X ++ (NL :: post') ++ [z]) in H.
  rewrite app_assoc in H. apply app_inj_tail in H as [H _].
  apply Hn. rewrite H. apply in_or_app. right. now left.
Qed.

(** X19. On a line of the file the intent is all that follows the leftmost
    "Intent: " (one with text after it) up to the end of the line: it is
    never empty, holds no newline, and keeps whatever else the line has
    there, further "|" fields and trailing blanks included. *)
Theorem intent_runs_to_line_end (text line g : str) :
  In line (file_lines text) ->
  search_intent line = Some g ->
  g <> [] /\ ~ In NL g
  /\ exists pre, line = pre ++ INTENT ++ g \/ line = pre ++ INTENT ++ g ++ [NL].
Proof.
  intros Hin Hs.
  pose proof (file_lines_each text) as Hshape.
  rewrite List.Forall_forall in Hshape.
  destruct (Hshape line Hin) as ((_ & body & Hb & Hline) & _).
  destruct (search_intent_sound line g Hs) as (pre & post & (He & Hg & Hn & Hp) & _).
  split; [exact Hg|]. split; [exact Hn|]. exists pre.
  destruct Hp as [-> | [post' ->]].
  - left. now rewrite app_nil_r in He.
  - right. destruct Hline as [Hl | Hl].
    + assert (post' = []) as ->; [|exact He].
      apply (tail_after_newline body (pre ++ INTENT ++ g)); [|exact Hb].
      rewrite <- Hl, He. now rewrite <- !app_assoc.
    + exfalso. apply Hb. rewrite <- Hl, He.
      apply in_or_app. right. apply in_or_app. right. apply in_or_app. right. now left.
Qed.

Lemma intent_runs_to_line_end_witness :
  exists pre,
    nth 0 (file_lines sample_log) [] = pre ++ INTENT ++ py "greet |  "
    \/ nth 0 (file_lines sample_log) [] = pre ++ INTENT ++ py "greet |  " ++ [NL].
Proof.
  destruct (intent_runs_to_line_end sample_log (nth 0 (file_lines sample_log) [])
              (py "greet |  ")) as (_ & _ & H).
  - left. reflexivity.
  - reflexivity.
  - exact H.
Defined.

Section FilterFacts.

Variable lower : str -> str.




End FilterFacts.
